(** * Node-tree command line of nwpc-workflow-log-processor

    A shallow embedding of
    [nwpc_workflow_log_processor/spark/cli/node_tree.py]: the two click
    commands [database] and [file], the result sink [_sink_result] and the
    two pipeline functions [generate_node_tree_from_database] and
    [generate_node_tree_from_file].

    The module is orchestration code: it parses two dates, reads a task
    descriptor, calls external collaborators in a fixed order and writes a
    result.  The embedding therefore has three layers:

    - [Utf8] and [Calendar]: text as code points, and the values and the
      two library calls on dates, [datetime.strptime(s, "%Y-%m-%d")] and
      [date.strftime("%Y-%m-%d")];
    - [Py]: the Python values a YAML task file can hold, with the
      subscript, [.get], truthiness and comparison operations the commands
      apply to them, and the exceptions these raise;
    - the commands themselves, written in a small monad [prog] of calls to
      the collaborators.  A collaborator answers a call with a value or
      with an exception; [run] executes a program against an arbitrary
      environment and records the calls made, in order. *)

From Stdlib Require Import ZArith NArith List String Ascii Bool Lia.
Import ListNotations.

Set Implicit Arguments.
Set Warnings "-register-all".

(** ** Results of fallible computations *)

(** The exceptions that can travel through this layer.  [OtherError]
    stands for whatever a collaborator raises. *)
Inductive exn : Type :=
| PyValueError
| PyTypeError
| PyKeyError
| PyIndexError
| PyAttributeError
| BadArgumentUsage (message : string)
| OtherError (name : string).

Inductive result (A : Type) : Type :=
| Ok (a : A)
| Raise (e : exn).
Arguments Ok {A} a.
Arguments Raise {A} e.

(** ** Text *)

(** A Python [str] is a sequence of code points, [0] to [0x10FFFF]; here
    it is held as the bytes of its UTF-8 form, a surrogate in the three
    bytes that the scheme gives it (the form that [surrogatepass] writes),
    so that every [str] has a form.  A byte that is not part of a sequence
    stands for itself, the way the [surrogateescape] handler reads it: it
    is the code point [U+DC00] plus the byte.  Text of code points below
    128 is the list of these code points. *)

Module Utf8.

Local Open Scope N_scope.
Local Open Scope list_scope.

Definition continuation (b : N) : bool := (128 <=? b) && (b <=? 191).

(** The byte sequences of two, three and four bytes: no overlong form and
    nothing above [0x10FFFF]. *)
Definition two_bytes (b0 b1 : N) : bool :=
  (194 <=? b0) && (b0 <=? 223) && continuation b1.

Definition three_bytes (b0 b1 b2 : N) : bool :=
  ((b0 =? 224) && (160 <=? b1) && (b1 <=? 191)
   || (225 <=? b0) && (b0 <=? 239) && continuation b1)
  && continuation b2.

Definition four_bytes (b0 b1 b2 b3 : N) : bool :=
  ((b0 =? 240) && (144 <=? b1) && (b1 <=? 191)
   || (241 <=? b0) && (b0 <=? 243) && continuation b1
   || (b0 =? 244) && (128 <=? b1) && (b1 <=? 143))
  && continuation b2 && continuation b3.

(** A byte that does not decode. *)
Definition escape (b : N) : N := 56320 + b.

(** The characters of a text: the code point of each and its bytes. *)
Fixpoint split (s : list ascii) : list (N * list ascii) :=
  match s with
  | [] => []
  | a0 :: r0 =>
      let b0 := N_of_ascii a0 in
      if b0 <? 128 then (b0, [a0]) :: split r0
      else
        match r0 with
        | [] => (escape b0, [a0]) :: split r0
        | a1 :: r1 =>
            let b1 := N_of_ascii a1 in
            if two_bytes b0 b1 then
              ((b0 - 192) * 64 + (b1 - 128), [a0; a1]) :: split r1
            else
              match r1 with
              | [] => (escape b0, [a0]) :: split r0
              | a2 :: r2 =>
                  let b2 := N_of_ascii a2 in
                  if three_bytes b0 b1 b2 then
                    ((b0 - 224) * 4096 + (b1 - 128) * 64 + (b2 - 128),
                     [a0; a1; a2]) :: split r2
                  else
                    match r2 with
                    | [] => (escape b0, [a0]) :: split r0
                    | a3 :: r3 =>
                        let b3 := N_of_ascii a3 in
                        if four_bytes b0 b1 b2 b3 then
                          ((b0 - 240) * 262144 + (b1 - 128) * 4096
                           + (b2 - 128) * 64 + (b3 - 128),
                           [a0; a1; a2; a3]) :: split r3
                        else (escape b0, [a0]) :: split r0
                    end
              end
        end
  end.

(** The code points of a text. *)
Definition decode (s : list ascii) : list N := map fst (split s).

End Utf8.

(** ** Dates *)

Module Calendar.

Local Open Scope Z_scope.
Local Open Scope list_scope.

(** [datetime.datetime]: a naive time stamp. *)
Record datetime : Type := mkDatetime {
  dt_year : Z; dt_month : Z; dt_day : Z;
  dt_hour : Z; dt_minute : Z; dt_second : Z; dt_microsecond : Z
}.

(** [datetime.date]: the key type of a bunch map. *)
Record date : Type := mkDate { year : Z; month : Z; day : Z }.

(** The formal difference [run_end_time - run_start_time]. *)
Record timedelta : Type := mkTimedelta { td_end : datetime; td_start : datetime }.

Definition midnight (y m d : Z) : datetime := mkDatetime y m d 0 0 0 0.

Definition is_leap (y : Z) : bool :=
  (y mod 4 =? 0) && (negb (y mod 100 =? 0) || (y mod 400 =? 0)).

Definition days_in_month (y m : Z) : Z :=
  if m =? 2 then (if is_leap y then 29 else 28)
  else if (m =? 4) || (m =? 6) || (m =? 9) || (m =? 11) then 30
  else 31.

(** The range check of the [date] constructor ([MINYEAR = 1],
    [MAXYEAR = 9999]). *)
Definition check_date_fields (y m d : Z) : bool :=
  (1 <=? y) && (y <=? 9999) && (1 <=? m) && (m <=? 12)
  && (1 <=? d) && (d <=? days_in_month y m).

(** *** Characters *)

(** The code points of a [str]. *)
Definition code_points (s : string) : list N :=
  Utf8.decode (list_ascii_of_string s).

(** The decimal digits of Unicode 14.0.0, the character database of
    CPython 3.11: each script has its ten digits in a row, from zero to
    nine, and the table holds the code point of each zero.  These are the
    characters that [\d] matches and that [int] reads. *)
Definition decimal_zeros : list N :=
  [48; 1632; 1776; 1984; 2406; 2534; 2662; 2790; 2918; 3046; 3174; 3302;
   3430; 3558; 3664; 3792; 3872; 4160; 4240; 6112; 6160; 6470; 6608; 6784;
   6800; 6992; 7088; 7232; 7248; 42528; 43216; 43264; 43472; 43504; 43600;
   44016; 65296; 66720; 68912; 69734; 69872; 69942; 70096; 70384; 70736;
   70864; 71248; 71360; 71472; 71904; 72016; 72784; 73040; 73120; 92768;
   92864; 93008; 120782; 120792; 120802; 120812; 120822; 123200; 123632;
   125264; 130032]%N.

Fixpoint decimal_in (zeros : list N) (c : N) : option Z :=
  match zeros with
  | [] => None
  | z :: rest =>
      if ((z <=? c) && (c <? z + 10))%N then Some (Z.of_N (c - z))
      else decimal_in rest c
  end.

Definition is_digit (c : N) : bool :=
  match decimal_in decimal_zeros c with
  | Some _ => true
  | None => false
  end.

Definition digit_value (c : N) : Z :=
  match decimal_in decimal_zeros c with
  | Some v => v
  | None => 0
  end.

(** The tests of the literal characters and of the ranges of a regular
    expression. *)
Definition is_char (a : ascii) (c : N) : bool := (N_of_ascii a =? c)%N.

Definition in_range (lo hi : ascii) (c : N) : bool :=
  ((N_of_ascii lo <=? c) && (c <=? N_of_ascii hi))%N.

Definition hyphen : N := N_of_ascii "-".
Definition blank : N := N_of_ascii " ".

(** [int(text)] on the text of a regex group: leading blanks are skipped,
    the rest is read in base ten. *)
Definition decimal (t : list N) : Z :=
  fold_left (fun acc c => 10 * acc + digit_value c) t 0.

Fixpoint lstrip (t : list N) : list N :=
  match t with
  | c :: r => if is_char " " c then lstrip r else t
  | [] => []
  end.

Definition py_int (t : list N) : Z := decimal (lstrip t).

(** *** The regular expression behind ["%Y-%m-%d"]

    [_strptime] turns the format into
    [(?P<Y>\d\d\d\d)-(?P<m>1[0-2]|0[1-9]|[1-9])-(?P<d>3[0-1]|[1-2]\d|0[1-9]|[1-9]| [1-9])]
    and applies [re.match].  A matcher returns every way to match a prefix
    of its input, the way a backtracking engine would try them: the text
    matched and the input left, leftmost alternative first. *)
Definition matcher : Type := list N -> list (list N * list N).

Definition cls (p : N -> bool) : matcher :=
  fun s => match s with
           | c :: r => if p c then [([c], r)] else []
           | [] => []
           end.

Definition seq (m1 m2 : matcher) : matcher :=
  fun s => flat_map (fun x => map (fun y => (fst x ++ fst y, snd y)) (m2 (snd x))) (m1 s).

Definition alt (m1 m2 : matcher) : matcher := fun s => m1 s ++ m2 s.

Definition re_digit : matcher := cls is_digit.
Definition re_chr (c : ascii) : matcher := cls (is_char c).
Definition re_rng (lo hi : ascii) : matcher := cls (in_range lo hi).

(** [\d\d\d\d] *)
Definition re_Y : matcher := seq re_digit (seq re_digit (seq re_digit re_digit)).

(** [1[0-2]|0[1-9]|[1-9]] *)
Definition re_m : matcher :=
  alt (seq (re_chr "1") (re_rng "0" "2"))
 (alt (seq (re_chr "0") (re_rng "1" "9"))
      (re_rng "1" "9")).

(** [3[0-1]|[1-2]\d|0[1-9]|[1-9]| [1-9]] *)
Definition re_d : matcher :=
  alt (seq (re_chr "3") (re_rng "0" "1"))
 (alt (seq (re_rng "1" "2") re_digit)
 (alt (seq (re_chr "0") (re_rng "1" "9"))
 (alt (re_rng "1" "9")
      (seq (re_chr " ") (re_rng "1" "9"))))).

(** The three groups of a match and the input after it. *)
Record found : Type := mkFound {
  group_Y : list N; group_m : list N; group_d : list N;
  unconverted : list N
}.

Definition format_regex (s : list N) : list found :=
  flat_map (fun Y =>
  flat_map (fun h1 =>
  flat_map (fun m =>
  flat_map (fun h2 =>
  map (fun d => mkFound (fst Y) (fst m) (fst d) (snd d))
      (re_d (snd h2)))
      (re_chr "-" (snd m)))
      (re_m (snd h1)))
      (re_chr "-" (snd Y)))
      (re_Y s).

(** [datetime.datetime.strptime(data_string, "%Y-%m-%d")] on a [str]:
    the first match of the regex is taken, input left over is an error
    ("unconverted data remains"), and the [date] constructor checks the
    fields.  Every failure is a [ValueError]. *)
Definition strptime (data_string : string) : result datetime :=
  match format_regex (code_points data_string) with
  | [] => Raise PyValueError
  | f :: _ =>
      match unconverted f with
      | _ :: _ => Raise PyValueError
      | [] =>
          let y := py_int (group_Y f) in
          let m := py_int (group_m f) in
          let d := py_int (group_d f) in
          if check_date_fields y m d then Ok (midnight y m d)
          else Raise PyValueError
      end
  end.

(** *** Formatting *)

Definition digit_char (n : Z) : ascii := ascii_of_N (Z.to_N (48 + n)).

Definition pad2 (n : Z) : list ascii :=
  [digit_char (n / 10 mod 10); digit_char (n mod 10)].

Definition pad4 (n : Z) : list ascii :=
  [digit_char (n / 1000 mod 10); digit_char (n / 100 mod 10);
   digit_char (n / 10 mod 10); digit_char (n mod 10)].

(** [%Y] on the year of a date, 1 to 9999, as the C library of CPython on
    Linux writes it: the year as a plain number, so that a year below 1000
    has fewer than four digits. *)
Definition year_text (y : Z) : list ascii :=
  if y <? 10 then [digit_char y]
  else if y <? 100 then pad2 y
  else if y <? 1000 then
    [digit_char (y / 100 mod 10); digit_char (y / 10 mod 10); digit_char (y mod 10)]
  else pad4 y.

(** [date.strftime("%Y-%m-%d")]: the year, then month and day in two
    digits, zero padded. *)
Definition strftime (d : date) : string :=
  string_of_list_ascii
    (year_text (year d) ++ "-"%char :: pad2 (month d) ++ "-"%char :: pad2 (day d)).

(** The invariant of a [date] object. *)
Definition valid_date (d : date) : Prop :=
  check_date_fields (year d) (month d) (day d) = true.

(** *** What the specification calls a valid YYYY-MM-DD string

    Four digits, a hyphen, two digits, a hyphen, two digits, naming a day
    of the calendar.  This definition follows the specification's words;
    [strptime] above follows the library. *)
Definition ascii_digit (a : ascii) : bool :=
  ((48 <=? N_of_ascii a) && (N_of_ascii a <=? 57))%N.

Definition ascii_decimal (t : list ascii) : Z :=
  fold_left (fun acc a => 10 * acc + (Z.of_N (N_of_ascii a) - 48)) t 0.

Definition canonical_ymd (s : string) : option (Z * Z * Z) :=
  match list_ascii_of_string s with
  | [a; b; c; d; h1; e; f; h2; g; h] =>
      if forallb ascii_digit [a; b; c; d; e; f; g; h]
         && Ascii.eqb h1 "-" && Ascii.eqb h2 "-"
      then
        let y := ascii_decimal [a; b; c; d] in
        let m := ascii_decimal [e; f] in
        let dd := ascii_decimal [g; h] in
        if check_date_fields y m dd then Some (y, m, dd) else None
      else None
  | _ => None
  end.

(** *** What [strptime] accepts, stated on the text

    A year of four decimal digits of any script; a month of one or two
    of the digits [0] to [9], between 1 and 12; a day of one or two of
    these digits, between 1 and 31, where for the days 10 to 29 the second
    digit may be of any script, or a blank and one of [1] to [9]; hyphens
    in between. *)
Definition numeral (t : list N) : Prop := Forall (fun c => is_digit c = true) t.

Definition ascii_numeral (t : list N) : Prop :=
  Forall (fun c => in_range "0" "9" c = true) t.

Definition month_text (M : list N) (m : Z) : Prop :=
  (List.length M = 1%nat \/ List.length M = 2%nat)
  /\ ascii_numeral M /\ m = decimal M /\ 1 <= m <= 12.

Definition day_text (D : list N) (d : Z) : Prop :=
  ((List.length D = 1%nat \/ List.length D = 2%nat)
   /\ ascii_numeral D /\ d = decimal D /\ 1 <= d <= 31)
  \/ (exists g h, D = [g; h] /\ in_range "1" "2" g = true
                  /\ is_digit h = true /\ d = decimal D)
  \/ (exists c, D = [blank; c] /\ in_range "1" "9" c = true
                /\ d = digit_value c).

Definition reads_as (s : list N) (y m d : Z) : Prop :=
  exists Y M D,
    s = Y ++ hyphen :: M ++ hyphen :: D
    /\ List.length Y = 4%nat /\ numeral Y /\ y = decimal Y
    /\ month_text M m /\ day_text D d.

End Calendar.

(** ** Python values *)

Module Py.

Local Open Scope Z_scope.
Local Open Scope list_scope.

(** A mapping key.  The commands subscript with string keys and with the
    integer [0] only; a key of another type never equals one of those
    (booleans count as the integers they equal). *)
Inductive key : Type :=
| KStr (s : string)
| KInt (i : Z).

(** What [load_config] can return for a YAML document, and what the
    commands compute from it. *)
Inductive value : Type :=
| PyNone
| PyBool (b : bool)
| PyInt (i : Z)
| PyStr (s : string)
| PyList (items : list value)
| PyDict (items : list (key * value))
| PyDatetime (d : Calendar.datetime).

Definition key_eqb (a b : key) : bool :=
  match a, b with
  | KStr s, KStr t => String.eqb s t
  | KInt i, KInt j => i =? j
  | _, _ => false
  end.

Fixpoint dict_lookup (k : key) (items : list (key * value)) : option value :=
  match items with
  | [] => None
  | (k', v) :: rest => if key_eqb k k' then Some v else dict_lookup k rest
  end.

(** [l[i]] on a sequence, negative indices counting from the end. *)
Definition index (A : Type) (l : list A) (i : Z) : option A :=
  let n := Z.of_nat (List.length l) in
  let j := if i <? 0 then i + n else i in
  if (0 <=? j) && (j <? n) then nth_error l (Z.to_nat j) else None.

(** [v[k]]. *)
Definition getitem (v : value) (k : key) : result value :=
  match v with
  | PyDict items =>
      match dict_lookup k items with
      | Some x => Ok x
      | None => Raise PyKeyError
      end
  | PyList items =>
      match k with
      | KInt i => match index items i with
                  | Some x => Ok x
                  | None => Raise PyIndexError
                  end
      | KStr _ => Raise PyTypeError
      end
  | PyStr s =>
      match k with
      | KInt i => match index (Utf8.split (list_ascii_of_string s)) i with
                  | Some c => Ok (PyStr (string_of_list_ascii (snd c)))
                  | None => Raise PyIndexError
                  end
      | KStr _ => Raise PyTypeError
      end
  | PyNone | PyBool _ | PyInt _ | PyDatetime _ => Raise PyTypeError
  end.

(** [dict.get(k, default)]. *)
Definition dict_get (k : key) (default : value) (items : list (key * value))
  : value :=
  match dict_lookup k items with
  | Some x => x
  | None => default
  end.

(** [v.get(k, default)]: only a mapping has the method. *)
Definition get (v : value) (k : key) (default : value) : result value :=
  match v with
  | PyDict items => Ok (dict_get k default items)
  | _ => Raise PyAttributeError
  end.

(** The truth value [if v:] tests. *)
Definition truthy (v : value) : bool :=
  match v with
  | PyNone => false
  | PyBool b => b
  | PyInt i => negb (i =? 0)
  | PyStr s => negb (String.eqb s "")
  | PyList items => match items with [] => false | _ :: _ => true end
  | PyDict items => match items with [] => false | _ :: _ => true end
  | PyDatetime _ => true
  end.

(** [v == "literal"]. *)
Definition eq_str (v : value) (literal : string) : bool :=
  match v with
  | PyStr s => String.eqb s literal
  | _ => false
  end.

(** [v is None]. *)
Definition is_none (v : value) : bool :=
  match v with
  | PyNone => true
  | _ => false
  end.

(** An optional command-line option: [None] when it is not given. *)
Definition of_option (o : option string) : value :=
  match o with
  | Some s => PyStr s
  | None => PyNone
  end.

(** [datetime.datetime.strptime(v, "%Y-%m-%d")]: the argument must be a
    [str]. *)
Definition strptime (v : value) : result value :=
  match v with
  | PyStr s =>
      match Calendar.strptime s with
      | Ok d => Ok (PyDatetime d)
      | Raise e => Raise e
      end
  | _ => Raise PyTypeError
  end.

(** The idiom both commands apply to [begin_date] and to [end_date]:
[[
    if begin_date:
        begin_date = datetime.datetime.strptime(begin_date, "%Y-%m-%d")
]] *)
Definition normalize_date (v : value) : result value :=
  if truthy v then strptime v else Ok v.

(** Keyword arguments, [**kwargs]. *)
Definition kwargs : Type := list (string * value).

Fixpoint kwargs_getitem (kw : kwargs) (name : string) : result value :=
  match kw with
  | [] => Raise PyKeyError
  | (n, v) :: rest => if String.eqb n name then Ok v else kwargs_getitem rest name
  end.

End Py.

(** ** JSON documents *)

(** What [json.dump] serialises.  The text of the document is the
    rendering of this value and is not modelled. *)
Inductive json : Type :=
| JNull
| JBool (b : bool)
| JNum (n : Z)
| JStr (s : string)
| JArr (items : list json)
| JObj (members : list (string * json)).

(** [result[k] = v] on a [dict] with string keys: an existing key keeps
    its place and takes the new value, a new key goes last. *)
Fixpoint dict_set (k : string) (v : json) (d : list (string * json))
  : list (string * json) :=
  match d with
  | [] => [(k, v)]
  | (k', v') :: rest =>
      if String.eqb k' k then (k', v) :: rest else (k', v') :: dict_set k v rest
  end.

(** ** Collaborators *)

(** The objects this layer receives from its collaborators and hands back
    to them without looking inside: the Spark session, the record RDD, the
    bunch (one day's tree), an open file.  A bunch converts to a plain
    dictionary with [to_dict]. *)
Class Collaborators : Type := {
  session : Type;
  records : Type;
  bunch : Type;
  file : Type;
  to_dict : bunch -> json
}.

(** [nwpc_workflow_model.visitor.SimplePrintVisitor()]. *)
Inductive visitor : Type := SimplePrintVisitor.

(** ** Programs over the collaborators *)

Section Programs.

Context `{Collaborators}.

Import Py.
Local Open Scope list_scope.

(** A bunch map: the [dict] from date to bunch that the calculator
    returns, as its items in iteration order. *)
Definition bunch_map : Type := list (Calendar.date * bunch).

(** The calls this layer makes, each with the type of its answer. *)
Inductive eventE : Type -> Type :=
| LoadConfig (config_file : string) : eventE value
| Now : eventE Calendar.datetime
| CreateSparkSession (config : value) : eventE session
| LoadRecordsFromRmdb (config : value) (spark : session)
    (owner repo begin_date end_date repo_type : value) : eventE records
| LoadRecordsFromFile (config log_file : value) (spark : session)
    (owner repo begin_date end_date repo_type : value) : eventE records
| CalculateNodeTree (config : value) (record_rdd : records) (spark : session)
    (repo_type : value) : eventE bunch_map
| SparkStop (spark : session) : eventE unit
| LoggerInfo (message : string) (elapsed : Calendar.timedelta) : eventE unit
| PreOrderTravel (node : bunch) (v : visitor) : eventE unit
| FileOpen (path : value) (mode : string) : eventE file
| JsonDump (obj : json) (fp : file) : eventE unit
| FileClose (fp : file) : eventE unit.

(** A program returns, raises, or makes a call and goes on with the
    answer, which is a value or an exception. *)
Inductive prog (R : Type) : Type :=
| Ret (r : R)
| Throw (e : exn)
| Vis (X : Type) (ev : eventE X) (k : result X -> prog R).
Arguments Ret {R} r.
Arguments Throw {R} e.
Arguments Vis {R X} ev k.

Fixpoint bind (A B : Type) (p : prog A) (f : A -> prog B) : prog B :=
  match p with
  | Ret a => f a
  | Throw e => Throw e
  | Vis ev k => Vis ev (fun r => bind (k r) f)
  end.

(** A pure step that may raise. *)
Definition lift (A : Type) (r : result A) : prog A :=
  match r with
  | Ok a => Ret a
  | Raise e => Throw e
  end.

(** A call whose exception, if any, propagates. *)
Definition call (X : Type) (ev : eventE X) : prog X := Vis ev (@lift X).

(** [try: p finally: c], the shape of a [with] block: [c] runs on both
    exits, and an exception of [c] replaces the pending one. *)
Fixpoint finally (A : Type) (p : prog A) (c : prog unit) : prog A :=
  match p with
  | Ret a => bind c (fun _ => Ret a)
  | Throw e => bind c (fun _ => Throw e)
  | Vis ev k => Vis ev (fun r => finally (k r) c)
  end.

(** [for item in items: body(item)]. *)
Fixpoint for_each (A : Type) (items : list A) (body : A -> prog unit) : prog unit :=
  match items with
  | [] => Ret tt
  | item :: rest => bind (body item) (fun _ => for_each rest body)
  end.

(** *** Running a program *)

(** One call and its answer. *)
Inductive entry : Type :=
| Entry (X : Type) (ev : eventE X) (r : result X).

(** The environment: given the calls answered so far, latest first, it
    answers the next call. *)
Definition oracle : Type := forall X : Type, list entry -> eventE X -> result X.

(** [run env past p] is the outcome of [p] and the calls it made, in
    order. *)
Fixpoint run (R : Type) (env : oracle) (past : list entry) (p : prog R)
  : result R * list entry :=
  match p with
  | Ret r => (Ok r, [])
  | Throw e => (Raise e, [])
  | Vis ev k =>
      let r := env _ past ev in
      let rest := run env (Entry ev r :: past) (k r) in
      (fst rest, Entry ev r :: snd rest)
  end.

(** An environment in which no collaborator fails. *)
Definition never_raises (env : oracle) : Prop :=
  forall (X : Type) (past : list entry) (ev : eventE X),
    exists x, env X past ev = Ok x.

End Programs.

Arguments Ret {_ R} r.
Arguments Throw {_ R} e.
Arguments Vis {_ R X} ev k.

Declare Scope prog_scope.
Delimit Scope prog_scope with prog.
Notation "x <- p ;; q" := (bind p (fun x => q))
  (at level 61, p at next level, right associativity) : prog_scope.
Notation "p ;; q" := (bind p (fun _ => q))
  (at level 61, right associativity) : prog_scope.

(** ** The module [node_tree.py] *)

Section Commands.

Context `{Collaborators}.

Import Py.
Local Open Scope list_scope.
Local Open Scope string_scope.
Local Open Scope prog_scope.

(** The message of the timing line,
    [f"step finished, using: {run_end_time - run_start_time}"]. *)
Definition step_finished : string := "step finished, using: ".

(** [generate_node_tree_from_database], lines 126-159. *)
Definition generate_node_tree_from_database
    (config owner repo begin_date end_date repo_type : value) : prog bunch_map :=
  run_start_time <- call Now ;;
  spark <- call (CreateSparkSession config) ;;
  record_rdd <- call (LoadRecordsFromRmdb config spark
                        owner repo begin_date end_date repo_type) ;;
  bunch_map <- call (CalculateNodeTree config record_rdd spark repo_type) ;;
  call (SparkStop spark) ;;
  run_end_time <- call Now ;;
  call (LoggerInfo step_finished
          (Calendar.mkTimedelta run_end_time run_start_time)) ;;
  Ret bunch_map.

(** [generate_node_tree_from_file], lines 162-197. *)
Definition generate_node_tree_from_file
    (config log_file owner repo begin_date end_date repo_type : value)
  : prog bunch_map :=
  run_start_time <- call Now ;;
  spark <- call (CreateSparkSession config) ;;
  record_rdd <- call (LoadRecordsFromFile config log_file spark
                        owner repo begin_date end_date repo_type) ;;
  bunch_map <- call (CalculateNodeTree config record_rdd spark repo_type) ;;
  call (SparkStop spark) ;;
  run_end_time <- call Now ;;
  call (LoggerInfo step_finished
          (Calendar.mkTimedelta run_end_time run_start_time)) ;;
  Ret bunch_map.

(** The dictionary the file branch of the sink builds, lines 119-122:
[[
    result = {}
    for date, bunch in bunch_map.items():
        date_string = date.strftime("%Y-%m-%d")
        result[date_string] = bunch.to_dict()
]] *)
Definition sink_document (items : bunch_map) : list (string * json) :=
  fold_left
    (fun result item =>
       let date_string := Calendar.strftime (fst item) in
       dict_set date_string (to_dict (snd item)) result)
    items [].

(** [_sink_result], lines 112-123. *)
Definition _sink_result (output_type : value) (items : bunch_map) (kw : kwargs)
  : prog unit :=
  if eq_str output_type "print" then
    for_each items
      (fun item => call (PreOrderTravel (snd item) SimplePrintVisitor))
  else if eq_str output_type "file" then
    output_file <- lift (kwargs_getitem kw "output_file") ;;
    f <- call (FileOpen output_file "w") ;;
    finally (call (JsonDump (JObj (sink_document items)) f))
            (call (FileClose f))
  else Ret tt.

(** The command [database], lines 30-53, on the options click hands it:
    [owner], [repo], [repo_type], [config_file] and [output_type] are
    strings, the other three are [None] when not given. *)
Definition database (owner repo repo_type : string)
    (begin_date end_date : option string) (config_file output_type : string)
    (output_file : option string) : prog unit :=
  begin_date <- lift (normalize_date (of_option begin_date)) ;;
  end_date <- lift (normalize_date (of_option end_date)) ;;
  config <- call (LoadConfig config_file) ;;
  bunch_map <- generate_node_tree_from_database config
                 (PyStr owner) (PyStr repo) begin_date end_date (PyStr repo_type) ;;
  _sink_result (PyStr output_type) bunch_map
               [("output_file", of_option output_file)].

(** The error message of line 96. *)
Definition output_file_must_be_set : string :=
  "output_file must be set when output_type is file".

(** The command [file] once both files are loaded, lines 68-110. *)
Definition cli_file_body (config task : value) : prog unit :=
  task_config <- lift (getitem task (KStr "task")) ;;
  owner <- lift (get task_config (KStr "owner") PyNone) ;;
  repo <- lift (get task_config (KStr "repo") PyNone) ;;
  begin_date <- lift (get task_config (KStr "begin_date") PyNone) ;;
  end_date <- lift (get task_config (KStr "end_date") PyNone) ;;
  repo_type <- lift (get task_config (KStr "workflow_type") (PyStr "ecflow")) ;;
  source_config <- lift (getitem task (KStr "source")) ;;
  current_source_config <- lift (getitem source_config (KInt 0)) ;;
  log_file <- lift (getitem current_source_config (KStr "file_path")) ;;
  sink_config <- lift (getitem task (KStr "sink")) ;;
  current_sink_config <- lift (getitem sink_config (KInt 0)) ;;
  output_type <- lift (getitem current_sink_config (KStr "type")) ;;
  begin_date <- lift (normalize_date begin_date) ;;
  end_date <- lift (normalize_date end_date) ;;
  output_file <-
    (if eq_str output_type "file" then
       output_file <- lift (get current_sink_config (KStr "file_path") PyNone) ;;
       if is_none output_file || eq_str output_file "" then
         Throw (BadArgumentUsage output_file_must_be_set)
       else Ret output_file
     else Ret PyNone) ;;
  bunch_map <- generate_node_tree_from_file config log_file
                 owner repo begin_date end_date repo_type ;;
  _sink_result output_type bunch_map [("output_file", output_file)].

(** The command [file], lines 55-110. *)
Definition cli_file (config_file task_file : string) : prog unit :=
  config <- call (LoadConfig config_file) ;;
  task <- call (LoadConfig task_file) ;;
  cli_file_body config task.

(** *** Task files that can be read

    What the command [file] needs from the [source] and [sink] sections
    to get as far as the pipeline: a first source descriptor with a
    [file_path], a first sink descriptor with a [type] and, when the type
    is ["file"], with a [file_path] that is neither [None] nor empty. *)
Definition source_ready (task log_file : value) : Prop :=
  exists source_config current_source_config,
    getitem task (KStr "source") = Ok source_config
    /\ getitem source_config (KInt 0) = Ok current_source_config
    /\ getitem current_source_config (KStr "file_path") = Ok log_file.

Definition first_sink (task current_sink_config output_type : value) : Prop :=
  exists sink_config,
    getitem task (KStr "sink") = Ok sink_config
    /\ getitem sink_config (KInt 0) = Ok current_sink_config
    /\ getitem current_sink_config (KStr "type") = Ok output_type.

Definition sink_ready (task output_type output_file : value) : Prop :=
  exists current_sink_config,
    first_sink task current_sink_config output_type
    /\ (eq_str output_type "file" = false /\ output_file = PyNone
        \/ eq_str output_type "file" = true
           /\ get current_sink_config (KStr "file_path") PyNone = Ok output_file
           /\ is_none output_file || eq_str output_file "" = false).

(** *** Reading a trace *)

Definition is_spark_stop (e : entry) : bool :=
  match e with
  | Entry (SparkStop _) _ => true
  | Entry _ _ => false
  end.

(** How often [session.stop()] was called. *)
Definition stop_count (tr : list entry) : nat :=
  List.length (filter is_spark_stop tr).

(** The bunch maps [calculate_node_tree] returned. *)
Fixpoint calculated (tr : list entry) : list bunch_map :=
  match tr with
  | [] => []
  | Entry (CalculateNodeTree _ _ _ _) (Ok m) :: rest => m :: calculated rest
  | _ :: rest => calculated rest
  end.

(** The exceptions raised by record loading or by the calculation. *)
Fixpoint load_or_calculate_failures (tr : list entry) : list exn :=
  match tr with
  | [] => []
  | Entry (LoadRecordsFromRmdb _ _ _ _ _ _ _) (Raise e) :: rest
  | Entry (LoadRecordsFromFile _ _ _ _ _ _ _ _) (Raise e) :: rest
  | Entry (CalculateNodeTree _ _ _ _) (Raise e) :: rest =>
      e :: load_or_calculate_failures rest
  | _ :: rest => load_or_calculate_failures rest
  end.

(** The bunches handed to [pre_order_travel] with a printing visitor. *)
Fixpoint traversed (tr : list entry) : list bunch :=
  match tr with
  | [] => []
  | Entry (PreOrderTravel b SimplePrintVisitor) _ :: rest => b :: traversed rest
  | _ :: rest => traversed rest
  end.

(** The documents handed to [json.dump]. *)
Fixpoint dumped (tr : list entry) : list json :=
  match tr with
  | [] => []
  | Entry (JsonDump doc _) _ :: rest => doc :: dumped rest
  | _ :: rest => dumped rest
  end.

(** The selection a record-loading call was given. *)
Record selection : Type := mkSelection {
  sel_owner : value; sel_repo : value;
  sel_begin_date : value; sel_end_date : value; sel_repo_type : value
}.

Fixpoint rmdb_loads (tr : list entry) : list selection :=
  match tr with
  | [] => []
  | Entry (LoadRecordsFromRmdb _ _ o r b e t) _ :: rest =>
      mkSelection o r b e t :: rmdb_loads rest
  | _ :: rest => rmdb_loads rest
  end.

Fixpoint file_loads (tr : list entry) : list (value * selection) :=
  match tr with
  | [] => []
  | Entry (LoadRecordsFromFile _ log_file _ o r b e t) _ :: rest =>
      (log_file, mkSelection o r b e t) :: file_loads rest
  | _ :: rest => file_loads rest
  end.

(** Records are loaded at most once, with the selection [x], and exactly
    once when no collaborator fails. *)
Definition loaded_once (A : Type) (env : oracle) (loads : list A) (x : A) : Prop :=
  (loads = [] \/ loads = [x]) /\ (never_raises env -> loads = [x]).

(** The sessions [create_spark_session] returned. *)
Fixpoint created (tr : list entry) : list session :=
  match tr with
  | [] => []
  | Entry (CreateSparkSession _) (Ok s) :: rest => s :: created rest
  | _ :: rest => created rest
  end.

(** The sessions [stop()] was called on. *)
Fixpoint stopped (tr : list entry) : list session :=
  match tr with
  | [] => []
  | Entry (SparkStop s) _ :: rest => s :: stopped rest
  | _ :: rest => stopped rest
  end.

(** The session bookkeeping of a trace: at most one session is created;
    [stop()] is called exactly when the calculator has returned, and then
    on the sessions created; a session is created and left without
    [stop()] exactly when record loading or the calculation raised. *)
Definition session_balanced (tr : list entry) : Prop :=
  (List.length (created tr) <= 1)%nat
  /\ stopped tr = match calculated tr with
                  | [] => []
                  | _ :: _ => created tr
                  end
  /\ (created tr <> [] /\ stopped tr = [] <-> load_or_calculate_failures tr <> []).

(** The paths [open] was called with. *)
Fixpoint opened (tr : list entry) : list value :=
  match tr with
  | [] => []
  | Entry (FileOpen path _) _ :: rest => path :: opened rest
  | _ :: rest => opened rest
  end.

(** The files [open] returned. *)
Fixpoint opened_files (tr : list entry) : list file :=
  match tr with
  | [] => []
  | Entry (FileOpen _ _) (Ok f) :: rest => f :: opened_files rest
  | _ :: rest => opened_files rest
  end.

(** The files that were closed. *)
Fixpoint closed (tr : list entry) : list file :=
  match tr with
  | [] => []
  | Entry (FileClose f) _ :: rest => f :: closed rest
  | _ :: rest => closed rest
  end.

(** The paths [load_config] was called with. *)
Fixpoint config_files (tr : list entry) : list string :=
  match tr with
  | [] => []
  | Entry (LoadConfig path) _ :: rest => path :: config_files rest
  | _ :: rest => config_files rest
  end.

(** The configuration handed to the session factory, to the record
    loaders and to the calculator. *)
Fixpoint configs_used (tr : list entry) : list value :=
  match tr with
  | [] => []
  | Entry (CreateSparkSession c) _ :: rest
  | Entry (LoadRecordsFromRmdb c _ _ _ _ _ _) _ :: rest
  | Entry (LoadRecordsFromFile c _ _ _ _ _ _ _) _ :: rest
  | Entry (CalculateNodeTree c _ _ _) _ :: rest => c :: configs_used rest
  | _ :: rest => configs_used rest
  end.

(** A trace without a call of the pipeline functions or of
    [load_config]. *)
Definition pipeline_free (tr : list entry) : Prop :=
  stop_count tr = 0%nat /\ calculated tr = [] /\ config_files tr = []
  /\ configs_used tr = [].

(** A trace without a call of the sink or of [load_config]. *)
Definition sink_free (tr : list entry) : Prop :=
  traversed tr = [] /\ dumped tr = [] /\ opened tr = [] /\ config_files tr = [].

End Commands.

(** ** A sample environment

    Concrete collaborators on which the commands can be run: every opaque
    object is a number, a bunch converts to that number, and the
    environment answers each call from a small script. *)

Module Sample.

Import Py.
Local Open Scope string_scope.
Local Open Scope list_scope.

Definition collaborators : Collaborators :=
  {| session := nat; records := nat; bunch := nat; file := nat;
     to_dict := fun b => JNum (Z.of_nat b) |}.

Definition day1 : Calendar.date := Calendar.mkDate 2020 1 1.
Definition day2 : Calendar.date := Calendar.mkDate 2020 1 2.

(** What the calculator returns in the sample runs. *)
Definition two_days : @bunch_map collaborators := [(day1, 7%nat); (day2, 8%nat)].

(** A bunch map of the last day of the year 999. *)
Definition early_day : Calendar.date := Calendar.mkDate 999 12 31.
Definition one_early_day : @bunch_map collaborators := [(early_day, 7%nat)].

(** Dates written with digits of other scripts: the year in fullwidth
    digits, the last digit of the day in Arabic-Indic, the month in
    Arabic-Indic. *)
Definition fullwidth_year : string := "２０２０-01-01".
Definition arabic_day_digit : string := "2020-01-1٥".
Definition arabic_month : string := "2020-٠١-01".

(** A task file: the [task] section, the source descriptors, the sink
    descriptors. *)
Definition task_file (task_section : list (key * value))
    (sources sinks : list value) : value :=
  PyDict [(KStr "task", PyDict task_section);
          (KStr "source", PyList sources);
          (KStr "sink", PyList sinks)].

Definition log_source (path : string) : value :=
  PyDict [(KStr "file_path", PyStr path)].

Definition sink_of_type (type : string) : value :=
  PyDict [(KStr "type", PyStr type)].

Definition file_sink (path : string) : value :=
  PyDict [(KStr "type", PyStr "file"); (KStr "file_path", PyStr path)].

(** A task file with an empty [task] section, one log file and a
    printing sink. *)
Definition task_print : value :=
  task_file [] [log_source "a.log"] [sink_of_type "print"].

(** The same task with further source and sink descriptors. *)
Definition task_print_more : value :=
  task_file [] [log_source "a.log"; log_source "b.log"]
            [sink_of_type "print"; file_sink "out.json"].

(** A sink of type ["file"] without a [file_path]. *)
Definition task_no_path : value :=
  task_file [] [log_source "a.log"] [sink_of_type "file"].

(** A task file with every key of the [task] section, two log files and
    a sink that writes a file. *)
Definition task_populated : value :=
  task_file [(KStr "owner", PyStr "wangdp"); (KStr "repo", PyStr "grapes");
             (KStr "begin_date", PyStr "2020-01-01");
             (KStr "end_date", PyStr "2020-1-3");
             (KStr "workflow_type", PyStr "sms")]
            [log_source "a.log"; log_source "b.log"] [file_sink "out.json"].

(** The same, with a begin date that is not a date. *)
Definition task_no_path_bad_date : value :=
  task_file [(KStr "begin_date", PyStr "2020/01/01")]
            [log_source "a.log"] [sink_of_type "file"].

(** The environment in which every call succeeds: [load_config] returns
    [task] for the path ["task.yml"] and an empty mapping otherwise. *)
Definition env (task : value) : @oracle collaborators :=
  fun X past ev =>
    match ev in eventE X return result X with
    | LoadConfig path =>
        if String.eqb path "task.yml" then Ok task else Ok (PyDict [])
    | Now => Ok (Calendar.midnight 2020 1 3)
    | CreateSparkSession _ => Ok 1%nat
    | LoadRecordsFromRmdb _ _ _ _ _ _ _ => Ok 2%nat
    | LoadRecordsFromFile _ _ _ _ _ _ _ _ => Ok 3%nat
    | CalculateNodeTree _ _ _ _ => Ok two_days
    | SparkStop _ => Ok tt
    | LoggerInfo _ _ => Ok tt
    | PreOrderTravel _ _ => Ok tt
    | FileOpen _ _ => Ok 4%nat
    | JsonDump _ _ => Ok tt
    | FileClose _ => Ok tt
    end.

(** The same environment, except that record loading fails. *)
Definition env_load_fails : @oracle collaborators :=
  fun X past ev =>
    match ev in eventE X return result X with
    | LoadRecordsFromRmdb _ _ _ _ _ _ _ => Raise (OtherError "load")
    | LoadRecordsFromFile _ _ _ _ _ _ _ _ => Raise (OtherError "load")
    | other => env PyNone past other
    end.

End Sample.

(** * Properties *)

(** ** Characters and digits *)

Section CharacterFacts.

Import Calendar.
Local Open Scope Z_scope.
Local Open Scope list_scope.

(** The digits and their values. *)

Lemma decimal_in_bounds (zeros : list N) (c : N) (v : Z) :
  decimal_in zeros c = Some v -> 0 <= v <= 9.
Proof.
  induction zeros as [|z rest IH]; cbn [decimal_in]; [discriminate|].
  destruct ((z <=? c) && (c <? z + 10))%N eqn:Hz; [|exact IH].
  intro Heq. inversion Heq; subst.
  apply andb_true_iff in Hz. rewrite N.leb_le, N.ltb_lt in Hz. lia.
Qed.

Lemma digit_value_bounds (c : N) : 0 <= digit_value c <= 9.
Proof.
  unfold digit_value. destruct (decimal_in decimal_zeros c) eqn:Hc; [|lia].
  eapply decimal_in_bounds; eassumption.
Qed.

Lemma decimal_in_first (z : N) (rest : list N) (c : N) :
  (z <= c < z + 10)%N -> decimal_in (z :: rest) c = Some (Z.of_N (c - z)).
Proof.
  intro Hc. cbn [decimal_in].
  replace ((z <=? c) && (c <? z + 10))%N with true; [reflexivity|].
  symmetry. apply andb_true_iff. rewrite N.leb_le, N.ltb_lt. exact Hc.
Qed.

(** The digits [0] to [9] are digits, with the values they show. *)
Lemma ascii_digit_value (c : N) :
  (48 <= c <= 57)%N -> is_digit c = true /\ digit_value c = Z.of_N c - 48.
Proof.
  intro Hc. unfold is_digit, digit_value, decimal_zeros.
  rewrite decimal_in_first by lia. split; [reflexivity | lia].
Qed.

Lemma in_range_bounds (lo hi : ascii) (c : N) :
  in_range lo hi c = true -> (N_of_ascii lo <= c <= N_of_ascii hi)%N.
Proof.
  unfold in_range. rewrite andb_true_iff, !N.leb_le. tauto.
Qed.

Lemma in_range_of_bounds (lo hi : ascii) (c : N) :
  (N_of_ascii lo <= c <= N_of_ascii hi)%N -> in_range lo hi c = true.
Proof.
  unfold in_range. rewrite andb_true_iff, !N.leb_le. tauto.
Qed.

Lemma digit_not_blank (c : N) : is_digit c = true -> is_char " " c = false.
Proof.
  intro Hc. unfold is_char. apply N.eqb_neq. intros <-. discriminate Hc.
Qed.

Lemma decimal_one (a : N) : decimal [a] = digit_value a.
Proof. unfold decimal. cbn [fold_left]. lia. Qed.

Lemma decimal_two (a b : N) : decimal [a; b] = 10 * digit_value a + digit_value b.
Proof. unfold decimal. cbn [fold_left]. lia. Qed.

Lemma py_int_numeral (c : N) (t : list N) :
  is_digit c = true -> py_int (c :: t) = decimal (c :: t).
Proof.
  intro Hc. unfold py_int. cbn [lstrip].
  rewrite digit_not_blank by assumption. reflexivity.
Qed.

Lemma py_int_blank (c : N) :
  is_digit c = true -> py_int [blank; c] = digit_value c.
Proof.
  intro Hc. unfold py_int, blank. cbn [lstrip].
  change (is_char " " (N_of_ascii " ")) with true. cbn iota.
  rewrite digit_not_blank by assumption. apply decimal_one.
Qed.

(** The ten digits from [0] to [9], one by one. *)
Lemma ascii_digit_cases (c : N) :
  in_range "0" "9" c = true ->
  In c [48; 49; 50; 51; 52; 53; 54; 55; 56; 57]%N.
Proof.
  intro Hc. apply in_range_bounds in Hc. cbn in Hc. cbn [In]. lia.
Qed.

Lemma digit_char_inj (a b : Z) :
  0 <= a <= 9 -> 0 <= b <= 9 -> digit_char a = digit_char b -> a = b.
Proof.
  intros Ha Hb Heq. apply (f_equal N_of_ascii) in Heq. unfold digit_char in Heq.
  rewrite !N_ascii_embedding in Heq by lia. lia.
Qed.

End CharacterFacts.

(** Turns the tests on characters in the context into equations and
    bounds on code points. *)
Ltac char_facts :=
  repeat match goal with
    | H : Calendar.is_char ?a ?c = true |- _ =>
        apply N.eqb_eq in H;
        let v := eval vm_compute in (N_of_ascii a) in
        change (N_of_ascii a) with v in H;
        subst c
    | H : Calendar.in_range ?lo ?hi _ = true |- _ =>
        apply in_range_bounds in H;
        let l := eval vm_compute in (N_of_ascii lo) in
        let h := eval vm_compute in (N_of_ascii hi) in
        change (N_of_ascii lo) with l in H;
        change (N_of_ascii hi) with h in H
    end.

(** Proves that a code point between [lo] and [hi] is in that range. *)
Ltac range_goal :=
  apply in_range_of_bounds;
  match goal with
  | |- (N_of_ascii ?lo <= _ <= N_of_ascii ?hi)%N =>
      let l := eval vm_compute in (N_of_ascii lo) in
      let h := eval vm_compute in (N_of_ascii hi) in
      change (N_of_ascii lo) with l;
      change (N_of_ascii hi) with h
  end;
  lia.

(** Proves that the characters of a text are digits from [0] to [9]. *)
Ltac numeral_goal :=
  unfold Calendar.ascii_numeral;
  repeat (apply Forall_cons; [first [reflexivity | assumption | range_goal]|]);
  apply Forall_nil.

(** The value of a digit from [0] to [9], as an equation. *)
Ltac value_of c :=
  let Hd := fresh "Hd" in
  let Hv := fresh "Hv" in
  destruct (@ascii_digit_value c ltac:(lia)) as [Hd Hv];
  rewrite ?Hv.

(** Splits on which of the ten digits a character is. *)
Ltac digit_cases H :=
  apply ascii_digit_cases in H; cbn [In] in H;
  repeat (destruct H as [H | H]); [subst .. | contradiction].

(** Computes the value of the digits that are known. *)
Ltac eval_digits :=
  repeat match goal with
    | |- context [Calendar.digit_value ?c] =>
        let v := eval vm_compute in (Calendar.digit_value c) in
        lazymatch v with
        | Z0 => idtac | Zpos _ => idtac
        end;
        change (Calendar.digit_value c) with v
    | H : context [Calendar.digit_value ?c] |- _ =>
        let v := eval vm_compute in (Calendar.digit_value c) in
        lazymatch v with
        | Z0 => idtac | Zpos _ => idtac
        end;
        change (Calendar.digit_value c) with v in H
    end.

Ltac digit_bound :=
  first [ lia
        | match goal with
          | |- (0 <= ?a mod 10 <= 9)%Z => pose proof (Z.mod_pos_bound a 10); lia
          end ].

(** Turns equal digit characters into equal digits. *)
Ltac digits_equal :=
  repeat match goal with
    | H : Calendar.digit_char ?a = Calendar.digit_char ?b |- _ =>
        apply digit_char_inj in H; [|digit_bound|digit_bound]
    end.

(** ** The two date conversions *)

Section CalendarFacts.

Import Calendar.
Local Open Scope Z_scope.
Local Open Scope list_scope.

(** What a match of each matcher looks like. *)

Lemma cls_In (p : N -> bool) (s t r : list N) :
  In (t, r) (cls p s) -> exists c, s = c :: r /\ t = [c] /\ p c = true.
Proof.
  destruct s as [|c s']; simpl; [tauto|].
  destruct (p c) eqn:Hp; simpl; [|tauto].
  intros [Heq | []]. inversion Heq; subst. eauto.
Qed.

Lemma seq_In (m1 m2 : matcher) (s t r : list N) :
  In (t, r) (seq m1 m2 s) ->
  exists t1 r1 t2, In (t1, r1) (m1 s) /\ In (t2, r) (m2 r1) /\ t = t1 ++ t2.
Proof.
  unfold seq. rewrite in_flat_map. intros [[t1 r1] [H1 H2]].
  apply in_map_iff in H2. destruct H2 as [[t2 r2] [Heq H2]].
  simpl in Heq. inversion Heq; subst. eauto 6.
Qed.

Lemma alt_In (m1 m2 : matcher) (s : list N) (x : list N * list N) :
  In x (alt m1 m2 s) -> In x (m1 s) \/ In x (m2 s).
Proof. unfold alt. apply in_app_or. Qed.

Lemma two_classes_In (p q : N -> bool) (s t r : list N) :
  In (t, r) (seq (cls p) (cls q) s) ->
  exists a b, s = a :: b :: r /\ t = [a; b] /\ p a = true /\ q b = true.
Proof.
  intro Hin. apply seq_In in Hin. destruct Hin as (t1 & r1 & t2 & H1 & H2 & ->).
  apply cls_In in H1. destruct H1 as (a & -> & -> & Ha).
  apply cls_In in H2. destruct H2 as (b & -> & -> & Hb).
  exists a, b. auto.
Qed.

Lemma re_Y_In (s t r : list N) :
  In (t, r) (re_Y s) ->
  s = t ++ r /\ List.length t = 4%nat /\ numeral t /\ py_int t = decimal t.
Proof.
  unfold re_Y, re_digit. intro Hin.
  apply seq_In in Hin. destruct Hin as (t1 & r1 & t2 & H1 & H2 & ->).
  apply cls_In in H1. destruct H1 as (a & -> & -> & Ha).
  apply seq_In in H2. destruct H2 as (t1 & r1' & t3 & H1 & H2 & ->).
  apply cls_In in H1. destruct H1 as (b & -> & -> & Hb).
  apply two_classes_In in H2. destruct H2 as (c & d & -> & -> & Hc & Hd).
  simpl. repeat split; [repeat constructor; assumption | now apply py_int_numeral].
Qed.

Lemma re_m_In (s t r : list N) :
  In (t, r) (re_m s) ->
  s = t ++ r /\ month_text t (decimal t) /\ py_int t = decimal t.
Proof.
  unfold re_m, re_chr, re_rng, month_text. intro Hin.
  apply alt_In in Hin. destruct Hin as [Hin | Hin];
    [|apply alt_In in Hin; destruct Hin as [Hin | Hin]].
  - apply two_classes_In in Hin. destruct Hin as (a & b & -> & -> & Ha & Hb).
    char_facts. value_of b. rewrite py_int_numeral by reflexivity.
    rewrite decimal_two, ?Hv.
    change (digit_value 49) with 1.
    repeat split; try lia; auto; numeral_goal.
  - apply two_classes_In in Hin. destruct Hin as (a & b & -> & -> & Ha & Hb).
    char_facts. value_of b. rewrite py_int_numeral by reflexivity.
    rewrite decimal_two, ?Hv.
    change (digit_value 48) with 0.
    repeat split; try lia; auto; numeral_goal.
  - apply cls_In in Hin. destruct Hin as (a & -> & -> & Ha).
    char_facts. value_of a. rewrite py_int_numeral by assumption.
    rewrite decimal_one, ?Hv.
    repeat split; try lia; auto; numeral_goal.
Qed.

Lemma re_d_In (s t r : list N) :
  In (t, r) (re_d s) -> s = t ++ r /\ day_text t (py_int t).
Proof.
  unfold re_d, re_chr, re_rng, re_digit, day_text. intro Hin.
  repeat (apply alt_In in Hin; destruct Hin as [Hin | Hin]);
    try (apply two_classes_In in Hin; destruct Hin as (a & b & -> & -> & Ha & Hb));
    try (apply cls_In in Hin; destruct Hin as (a & -> & -> & Ha)).
  - char_facts. value_of b. rewrite py_int_numeral by reflexivity.
    split; [reflexivity|]. left. rewrite decimal_two, ?Hv.
    change (digit_value 51) with 3.
    repeat split; try lia; auto; numeral_goal.
  - char_facts. value_of a. rewrite py_int_numeral by assumption.
    split; [reflexivity|]. right. left. exists a, b.
    repeat split; auto. range_goal.
  - char_facts. value_of b. rewrite py_int_numeral by reflexivity.
    split; [reflexivity|]. left. rewrite decimal_two, ?Hv.
    change (digit_value 48) with 0.
    repeat split; try lia; auto; numeral_goal.
  - char_facts. value_of a. rewrite py_int_numeral by assumption.
    split; [reflexivity|]. left. rewrite decimal_one, ?Hv.
    repeat split; try lia; auto; numeral_goal.
  - char_facts. value_of b.
    change 32%N with blank. rewrite py_int_blank by assumption.
    split; [reflexivity|]. right. right. exists b.
    repeat split; auto. range_goal.
Qed.

Lemma format_regex_In (s : list N) (f : found) :
  In f (format_regex s) ->
  unconverted f = [] ->
  reads_as s (py_int (group_Y f)) (py_int (group_m f)) (py_int (group_d f)).
Proof.
  unfold format_regex. intros Hin Hrest.
  apply in_flat_map in Hin. destruct Hin as ([Y s1] & HY & Hin).
  apply in_flat_map in Hin. destruct Hin as ([h1 s2] & Hh1 & Hin).
  apply in_flat_map in Hin. destruct Hin as ([M s3] & HM & Hin).
  apply in_flat_map in Hin. destruct Hin as ([h2 s4] & Hh2 & Hin).
  apply in_map_iff in Hin. destruct Hin as ([D s5] & <- & HD).
  cbn [fst snd] in *. cbn [unconverted group_Y group_m group_d] in *. subst s5.
  apply re_Y_In in HY. destruct HY as (-> & HlenY & HnumY & HintY).
  apply cls_In in Hh1. destruct Hh1 as (c1 & -> & -> & Hc1).
  apply cls_In in Hh2. destruct Hh2 as (c2 & -> & -> & Hc2).
  apply N.eqb_eq in Hc1, Hc2. subst c1 c2. fold hyphen in *.
  apply re_m_In in HM. destruct HM as (-> & HM & HintM).
  apply re_d_In in HD. destruct HD as (-> & HD).
  exists Y, M, D. rewrite app_nil_r, HintY, HintM.
  split; [reflexivity|]. split; [assumption|]. split; [assumption|].
  split; [reflexivity|]. split; assumption.
Qed.

(** [strptime] fails with [ValueError] only. *)
Lemma strptime_raises (s : string) (e : exn) :
  strptime s = Raise e -> e = PyValueError.
Proof.
  unfold strptime.
  destruct (format_regex (code_points s)) as [|f l]; [congruence|].
  destruct (unconverted f); [|congruence].
  destruct check_date_fields; congruence.
Qed.

(** What [strptime] accepts reads as a day of the calendar, and the result
    is that day at midnight. *)
Lemma strptime_sound (s : string) (dt : datetime) :
  strptime s = Ok dt ->
  exists y m d,
    reads_as (code_points s) y m d
    /\ check_date_fields y m d = true /\ dt = midnight y m d.
Proof.
  unfold strptime.
  destruct (format_regex (code_points s)) as [|f l] eqn:Hre; [discriminate|].
  destruct (unconverted f) eqn:Hrest; [|discriminate].
  destruct check_date_fields eqn:Hchk; [|discriminate].
  intro Heq. inversion Heq; subst.
  exists (py_int (group_Y f)), (py_int (group_m f)), (py_int (group_d f)).
  repeat split; try assumption.
  apply format_regex_In; [rewrite Hre; left; reflexivity | assumption].
Qed.

(** On text in the canonical form the first alternative that matches is
    the one that takes both digits, so no backtracking takes place. *)

Lemma re_Y_digits (a b c d : N) (r : list N) :
  is_digit a = true -> is_digit b = true ->
  is_digit c = true -> is_digit d = true ->
  re_Y (a :: b :: c :: d :: r) = [([a; b; c; d], r)].
Proof.
  intros Ha Hb Hc Hd. unfold re_Y, re_digit, seq, cls.
  rewrite Ha. cbn [flat_map map fst snd app]. rewrite Hb.
  cbn [flat_map map fst snd app]. rewrite Hc.
  cbn [flat_map map fst snd app]. rewrite Hd. reflexivity.
Qed.

Lemma re_m_two (e f : N) (r : list N) :
  in_range "0" "9" e = true -> in_range "0" "9" f = true ->
  1 <= decimal [e; f] <= 12 ->
  exists l, re_m (e :: f :: r) = ([e; f], r) :: l.
Proof.
  intros He Hf. rewrite decimal_two. intro Hm.
  digit_cases He; digit_cases Hf; eval_digits;
    try lia; eexists; reflexivity.
Qed.

Lemma re_d_two (g h : N) (r : list N) :
  in_range "0" "9" g = true -> in_range "0" "9" h = true ->
  1 <= decimal [g; h] <= 31 ->
  exists l, re_d (g :: h :: r) = ([g; h], r) :: l.
Proof.
  intros Hg Hh. rewrite decimal_two. intro Hd.
  digit_cases Hg; digit_cases Hh; eval_digits;
    try lia; eexists; reflexivity.
Qed.

Lemma check_date_fields_bounds (y m d : Z) :
  check_date_fields y m d = true ->
  1 <= y <= 9999 /\ 1 <= m <= 12 /\ 1 <= d <= days_in_month y m.
Proof.
  unfold check_date_fields. rewrite !andb_true_iff, !Z.leb_le. tauto.
Qed.

Lemma days_in_month_le (y m : Z) : days_in_month y m <= 31.
Proof.
  unfold days_in_month.
  destruct (m =? 2); [destruct (is_leap y); lia|].
  destruct ((m =? 4) || (m =? 6) || (m =? 9) || (m =? 11)); lia.
Qed.

(** Text of bytes below 128 is its own UTF-8 form: one character a byte. *)
Lemma split_ascii (a : ascii) (r : list ascii) :
  (N_of_ascii a < 128)%N ->
  Utf8.split (a :: r) = (N_of_ascii a, [a]) :: Utf8.split r.
Proof.
  intro Ha. apply N.ltb_lt in Ha. cbn [Utf8.split]. rewrite Ha. reflexivity.
Qed.

Lemma decode_ascii (s : list ascii) :
  Forall (fun a => (N_of_ascii a < 128)%N) s ->
  Utf8.decode s = map N_of_ascii s.
Proof.
  unfold Utf8.decode. induction 1 as [|a r Ha Hr IH]; [reflexivity|].
  rewrite split_ascii by assumption. cbn [map fst]. now rewrite IH.
Qed.

(** A byte that is a digit from [0] to [9] is that digit as a character. *)
Lemma ascii_digit_char (a : ascii) :
  ascii_digit a = true ->
  (N_of_ascii a < 128)%N
  /\ in_range "0" "9" (N_of_ascii a) = true
  /\ is_digit (N_of_ascii a) = true
  /\ digit_value (N_of_ascii a) = Z.of_N (N_of_ascii a) - 48.
Proof.
  unfold ascii_digit. rewrite andb_true_iff, !N.leb_le. intro Ha.
  destruct (@ascii_digit_value (N_of_ascii a) Ha) as [Hd Hv].
  repeat split; try assumption; [lia | range_goal].
Qed.

(** A valid YYYY-MM-DD string parses to its date at midnight. *)
Lemma strptime_canonical (s : string) (y m d : Z) :
  canonical_ymd s = Some (y, m, d) ->
  strptime s = Ok (midnight y m d).
Proof.
  unfold canonical_ymd, strptime, code_points.
  destruct (list_ascii_of_string s) as [|a [|b [|c [|d0 [|h1 [|e [|f [|h2 [|g [|h [|x l]]]]]]]]]]];
    try discriminate.
  destruct (forallb ascii_digit [a; b; c; d0; e; f; g; h] && Ascii.eqb h1 "-"
            && Ascii.eqb h2 "-") eqn:Hform; [|discriminate].
  destruct (check_date_fields (ascii_decimal [a; b; c; d0]) (ascii_decimal [e; f])
              (ascii_decimal [g; h])) eqn:Hchk; [|discriminate].
  intro Heq. inversion Heq; subst y m d. clear Heq.
  apply andb_true_iff in Hform. destruct Hform as [Hform Hh2].
  apply andb_true_iff in Hform. destruct Hform as [Hdig Hh1].
  apply Ascii.eqb_eq in Hh1, Hh2. subst h1 h2.
  cbn [forallb] in Hdig. rewrite !andb_true_iff in Hdig.
  destruct Hdig as (Ha & Hb & Hc & Hd & He & Hf & Hg & Hh & _).
  apply ascii_digit_char in Ha, Hb, Hc, Hd, He, Hf, Hg, Hh.
  destruct Ha as (Ha & _ & Ha' & Hva), Hb as (Hb & _ & Hb' & Hvb),
    Hc as (Hc & _ & Hc' & Hvc), Hd as (Hd & _ & Hd' & Hvd),
    He as (He & He9 & He' & Hve), Hf as (Hf & Hf9 & Hf' & Hvf),
    Hg as (Hg & Hg9 & Hg' & Hvg), Hh as (Hh & Hh9 & Hh' & Hvh).
  rewrite decode_ascii
    by (repeat (apply Forall_cons; [first [assumption | cbn; lia]|]); apply Forall_nil).
  cbn [map].
  assert (HY : decimal [N_of_ascii a; N_of_ascii b; N_of_ascii c; N_of_ascii d0]
               = ascii_decimal [a; b; c; d0]).
  { unfold decimal, ascii_decimal. cbn [fold_left]. rewrite Hva, Hvb, Hvc, Hvd.
    reflexivity. }
  assert (HM : decimal [N_of_ascii e; N_of_ascii f] = ascii_decimal [e; f]).
  { unfold decimal, ascii_decimal. cbn [fold_left]. rewrite Hve, Hvf. reflexivity. }
  assert (HD : decimal [N_of_ascii g; N_of_ascii h] = ascii_decimal [g; h]).
  { unfold decimal, ascii_decimal. cbn [fold_left]. rewrite Hvg, Hvh. reflexivity. }
  pose proof (@check_date_fields_bounds _ _ _ Hchk) as (_ & Hm & Hday).
  pose proof (days_in_month_le (ascii_decimal [a; b; c; d0]) (ascii_decimal [e; f])) as Hle.
  rewrite <- HM in Hm. rewrite <- HD in Hday.
  destruct (@re_m_two _ _ (N_of_ascii "-" :: N_of_ascii g :: N_of_ascii h :: [])
              He9 Hf9 Hm) as [lm Hlm].
  destruct (@re_d_two _ _ [] Hg9 Hh9 ltac:(lia)) as [ld Hld].
  unfold format_regex. rewrite (@re_Y_digits _ _ _ _ _ Ha' Hb' Hc' Hd').
  cbn [flat_map fst snd app].
  change (re_chr "-" (N_of_ascii "-" :: N_of_ascii e :: N_of_ascii f
                        :: N_of_ascii "-" :: N_of_ascii g :: N_of_ascii h :: []))
    with [([N_of_ascii "-"], N_of_ascii e :: N_of_ascii f
                        :: N_of_ascii "-" :: N_of_ascii g :: N_of_ascii h :: [])].
  cbn [flat_map fst snd app]. rewrite Hlm.
  cbn [flat_map fst snd app].
  change (re_chr "-" (N_of_ascii "-" :: N_of_ascii g :: N_of_ascii h :: []))
    with [([N_of_ascii "-"], N_of_ascii g :: N_of_ascii h :: [])].
  cbn [flat_map fst snd app]. rewrite Hld.
  cbn [map fst snd app unconverted group_Y group_m group_d].
  rewrite !py_int_numeral by assumption. rewrite HY, HM, HD, Hchk. reflexivity.
Qed.

Lemma strftime_inj (d1 d2 : date) :
  valid_date d1 -> valid_date d2 -> strftime d1 = strftime d2 -> d1 = d2.
Proof.
  unfold valid_date, strftime. intros H1 H2 Heq.
  apply check_date_fields_bounds in H1, H2.
  pose proof (days_in_month_le (year d1) (month d1)).
  pose proof (days_in_month_le (year d2) (month d2)).
  apply (f_equal list_ascii_of_string) in Heq.
  rewrite !list_ascii_of_string_of_list_ascii in Heq.
  destruct d1 as [y1 m1 dd1], d2 as [y2 m2 dd2]. cbn [year month day] in *.
  unfold year_text, pad4, pad2 in Heq.
  destruct (Z.ltb_spec y1 10); [|destruct (Z.ltb_spec y1 100); [|destruct (Z.ltb_spec y1 1000)]];
    (destruct (Z.ltb_spec y2 10);
       [|destruct (Z.ltb_spec y2 100); [|destruct (Z.ltb_spec y2 1000)]]);
    cbn [app] in Heq;
    try (apply (f_equal (@List.length ascii)) in Heq; cbn [List.length] in Heq;
         discriminate Heq);
    injection Heq; intros; digits_equal;
    assert (y1 = y2) by (Z.div_mod_to_equations; lia);
    assert (m1 = m2) by (Z.div_mod_to_equations; lia);
    assert (dd1 = dd2) by (Z.div_mod_to_equations; lia);
    congruence.
Qed.

(** The digits that formatting writes. *)

Lemma digit_char_code (k : Z) :
  0 <= k <= 9 -> N_of_ascii (digit_char k) = Z.to_N (48 + k).
Proof. intro Hk. unfold digit_char. apply N_ascii_embedding. lia. Qed.

Lemma ascii_digit_of_char (k : Z) : 0 <= k <= 9 -> ascii_digit (digit_char k) = true.
Proof.
  intro Hk. unfold ascii_digit. rewrite digit_char_code by assumption.
  apply andb_true_iff. rewrite !N.leb_le. lia.
Qed.

Lemma digit_char_value (c : ascii) :
  ascii_digit c = true -> digit_char (Z.of_N (N_of_ascii c) - 48) = c.
Proof.
  unfold ascii_digit. rewrite andb_true_iff, !N.leb_le. intro Hc.
  unfold digit_char.
  replace (Z.to_N (48 + (Z.of_N (N_of_ascii c) - 48))) with (N_of_ascii c) by lia.
  apply ascii_N_embedding.
Qed.

Lemma ascii_digit_bounds (c : ascii) :
  ascii_digit c = true -> 0 <= Z.of_N (N_of_ascii c) - 48 <= 9.
Proof.
  unfold ascii_digit. rewrite andb_true_iff, !N.leb_le. lia.
Qed.

Lemma mod10_digit (n : Z) : 0 <= n mod 10 <= 9.
Proof. pose proof (Z.mod_pos_bound n 10). lia. Qed.

Lemma decimal_pad2 (n : Z) : 0 <= n <= 99 -> ascii_decimal (pad2 n) = n.
Proof.
  intro Hn. unfold pad2, ascii_decimal. cbn [fold_left].
  rewrite !digit_char_code by apply mod10_digit.
  pose proof (mod10_digit n). pose proof (mod10_digit (n / 10)).
  rewrite !Z2N.id by lia.
  Z.div_mod_to_equations. lia.
Qed.

Lemma decimal_pad4 (n : Z) : 0 <= n <= 9999 -> ascii_decimal (pad4 n) = n.
Proof.
  intro Hn. unfold pad4, ascii_decimal. cbn [fold_left].
  rewrite !digit_char_code by apply mod10_digit.
  pose proof (mod10_digit n). pose proof (mod10_digit (n / 10)).
  pose proof (mod10_digit (n / 100)). pose proof (mod10_digit (n / 1000)).
  rewrite !Z2N.id by lia.
  Z.div_mod_to_equations. lia.
Qed.

(** From the year 1000 on the year is written in four digits. *)
Lemma year_text_four (y : Z) : 1000 <= y -> year_text y = pad4 y.
Proof.
  intro Hy. unfold year_text.
  destruct (Z.ltb_spec y 10); [lia|].
  destruct (Z.ltb_spec y 100); [lia|].
  destruct (Z.ltb_spec y 1000); [lia|]. reflexivity.
Qed.

(** A formatted date of the year 1000 or later is a valid YYYY-MM-DD
    string. *)
Lemma canonical_strftime (d : date) :
  valid_date d -> 1000 <= year d ->
  canonical_ymd (strftime d) = Some (year d, month d, day d).
Proof.
  unfold valid_date. intros Hchk Hfour.
  pose proof (check_date_fields_bounds _ _ _ Hchk) as (Hy & Hm & Hd).
  pose proof (days_in_month_le (year d) (month d)) as Hle.
  unfold canonical_ymd, strftime.
  rewrite list_ascii_of_string_of_list_ascii, year_text_four by assumption.
  change (pad4 (year d) ++ "-"%char :: pad2 (month d) ++ "-"%char :: pad2 (day d))
    with [digit_char (year d / 1000 mod 10); digit_char (year d / 100 mod 10);
          digit_char (year d / 10 mod 10); digit_char (year d mod 10);
          "-"%char;
          digit_char (month d / 10 mod 10); digit_char (month d mod 10);
          "-"%char;
          digit_char (day d / 10 mod 10); digit_char (day d mod 10)].
  cbn [forallb]. rewrite !ascii_digit_of_char by apply mod10_digit.
  change (Ascii.eqb "-" "-") with true. cbn [andb].
  change [digit_char (year d / 1000 mod 10); digit_char (year d / 100 mod 10);
          digit_char (year d / 10 mod 10); digit_char (year d mod 10)]
    with (pad4 (year d)).
  change [digit_char (month d / 10 mod 10); digit_char (month d mod 10)]
    with (pad2 (month d)).
  change [digit_char (day d / 10 mod 10); digit_char (day d mod 10)]
    with (pad2 (day d)).
  rewrite decimal_pad4, !decimal_pad2 by lia.
  rewrite Hchk. reflexivity.
Qed.

(** A date of a year below 1000 is written with fewer than four digits
    of the year, so its text is not a YYYY-MM-DD string. *)
Lemma short_year_not_canonical (d : date) :
  year d < 1000 -> canonical_ymd (strftime d) = None.
Proof.
  intro Hy. unfold canonical_ymd, strftime, year_text, pad2.
  rewrite list_ascii_of_string_of_list_ascii.
  destruct (Z.ltb_spec (year d) 10); [reflexivity|].
  destruct (Z.ltb_spec (year d) 100); [reflexivity|].
  destruct (Z.ltb_spec (year d) 1000); [reflexivity | lia].
Qed.

End CalendarFacts.

(** ** Running programs *)

Section RunFacts.

Context `{Collaborators}.

Local Open Scope list_scope.

(** The calls of [bind p f] are those of [p] followed, when [p] returns,
    by those of [f]. *)
Lemma run_bind (A B : Type) (env : oracle) (p : prog A) (f : A -> prog B) :
  forall past,
    run env past (bind p f) =
    match fst (run env past p) with
    | Ok a =>
        let rest := run env (rev (snd (run env past p)) ++ past) (f a) in
        (fst rest, snd (run env past p) ++ snd rest)
    | Raise e => (Raise e, snd (run env past p))
    end.
Proof.
  induction p as [a | e | X ev k IH]; intro past; cbn [bind run fst snd].
  - cbn [rev app]. destruct (run env past (f a)); reflexivity.
  - reflexivity.
  - rewrite IH. destruct (fst (run env (Entry ev (env X past ev) :: past) (k (env X past ev)))).
    + cbn [rev fst snd app]. rewrite <- app_assoc. reflexivity.
    + reflexivity.
Qed.

Lemma run_call_bind (X B : Type) (env : oracle) (past : list entry)
    (ev : eventE X) (f : X -> prog B) :
  run env past (bind (call ev) f) =
  match env X past ev with
  | Ok x =>
      (fst (run env (Entry ev (Ok x) :: past) (f x)),
       Entry ev (Ok x) :: snd (run env (Entry ev (Ok x) :: past) (f x)))
  | Raise e => (Raise e, [Entry ev (Raise e)])
  end.
Proof.
  unfold call. cbn [bind run]. destruct (env X past ev); reflexivity.
Qed.

Lemma run_lift_bind (A B : Type) (env : oracle) (past : list entry)
    (r : result A) (f : A -> prog B) :
  run env past (bind (lift r) f) =
  match r with
  | Ok a => run env past (f a)
  | Raise e => (Raise e, [])
  end.
Proof. destruct r; reflexivity. Qed.

Lemma run_ret (A : Type) (env : oracle) (past : list entry) (a : A) :
  run env past (Ret a) = (Ok a, []).
Proof. reflexivity. Qed.

End RunFacts.

(** Follows the next call of the program under [run]: the environment
    answers with a value or with an exception. *)
Ltac next_call env :=
  rewrite run_call_bind;
  let x := fresh "x" in
  let e := fresh "e" in
  let Hx := fresh "Hx" in
  match goal with
  | |- context [match env ?X ?p ?ev with Ok _ => _ | Raise _ => _ end] =>
      destruct (env X p ev) as [x | e] eqn:Hx
  end;
  cbn beta iota delta [fst snd].

(** Follows a program to each of its exits. *)
Ltac walk env := repeat first [rewrite run_ret; cbn [fst snd] | next_call env].

(** In an environment that never fails, only the successful answer of the
    next call has to be followed. *)
Ltac next_success env Hnr :=
  rewrite run_call_bind;
  let x := fresh "x" in
  let Hx := fresh "Hx" in
  match goal with
  | |- context [match env ?X ?p ?ev with Ok _ => _ | Raise _ => _ end] =>
      destruct (Hnr X p ev) as [x Hx]; rewrite Hx
  end;
  cbn beta iota delta [fst snd].

Ltac walk_success env Hnr :=
  repeat first [rewrite run_ret; cbn [fst snd] | next_success env Hnr].

(** ** The pipeline functions *)

Section PipelineFacts.

Context `{Collaborators}.

Import Py.
Local Open Scope list_scope.

Variable env : oracle.
Variable past : list entry.
Variables config log_file owner repo begin_date end_date repo_type : value.

Let from_database :=
  run env past (generate_node_tree_from_database
                  config owner repo begin_date end_date repo_type).
Let from_file :=
  run env past (generate_node_tree_from_file
                  config log_file owner repo begin_date end_date repo_type).
Let selected := mkSelection owner repo begin_date end_date repo_type.

Lemma database_pipeline_success (m : bunch_map) :
  fst from_database = Ok m ->
  stop_count (snd from_database) = 1%nat /\ calculated (snd from_database) = [m].
Proof.
  unfold from_database, generate_node_tree_from_database.
  repeat (next_call env; [|discriminate]).
  rewrite run_ret. cbn [fst snd]. intro Heq. inversion Heq; subst.
  split; reflexivity.
Qed.

Lemma file_pipeline_success (m : bunch_map) :
  fst from_file = Ok m ->
  stop_count (snd from_file) = 1%nat /\ calculated (snd from_file) = [m].
Proof.
  unfold from_file, generate_node_tree_from_file.
  repeat (next_call env; [|discriminate]).
  rewrite run_ret. cbn [fst snd]. intro Heq. inversion Heq; subst.
  split; reflexivity.
Qed.

Lemma database_pipeline_total :
  never_raises env ->
  exists m, fst from_database = Ok m
            /\ rmdb_loads (snd from_database) = [selected]
            /\ file_loads (snd from_database) = [].
Proof.
  intro Hnr. unfold from_database, generate_node_tree_from_database.
  walk_success env Hnr. eexists. repeat split; reflexivity.
Qed.

Lemma file_pipeline_total :
  never_raises env ->
  exists m, fst from_file = Ok m
            /\ file_loads (snd from_file) = [(log_file, selected)]
            /\ rmdb_loads (snd from_file) = [].
Proof.
  intro Hnr. unfold from_file, generate_node_tree_from_file.
  walk_success env Hnr. eexists. repeat split; reflexivity.
Qed.

Lemma database_pipeline_failure (e : exn) :
  In e (load_or_calculate_failures (snd from_database)) ->
  fst from_database = Raise e /\ stop_count (snd from_database) = 0%nat.
Proof.
  unfold from_database, generate_node_tree_from_database.
  walk env; cbn [load_or_calculate_failures In];
    intros [<- | []] || intros []; split; reflexivity.
Qed.

Lemma file_pipeline_failure (e : exn) :
  In e (load_or_calculate_failures (snd from_file)) ->
  fst from_file = Raise e /\ stop_count (snd from_file) = 0%nat.
Proof.
  unfold from_file, generate_node_tree_from_file.
  walk env; cbn [load_or_calculate_failures In];
    intros [<- | []] || intros []; split; reflexivity.
Qed.

(** Whatever the environment does, a pipeline function loads records at
    most once, with the selection it was given. *)
Lemma database_pipeline_loads :
  (rmdb_loads (snd from_database) = [] \/ rmdb_loads (snd from_database) = [selected])
  /\ file_loads (snd from_database) = [].
Proof.
  unfold from_database, generate_node_tree_from_database.
  walk env; cbn [rmdb_loads file_loads]; auto.
Qed.

Lemma file_pipeline_loads :
  (file_loads (snd from_file) = [] \/ file_loads (snd from_file) = [(log_file, selected)])
  /\ rmdb_loads (snd from_file) = [].
Proof.
  unfold from_file, generate_node_tree_from_file.
  walk env; cbn [rmdb_loads file_loads]; auto.
Qed.

(** C4.  When a pipeline function completes without an exception,
    [session.stop()] has been called exactly once and the value returned is
    the bunch map [calculate_node_tree] returned; and a pipeline function
    does complete when no collaborator fails. *)
Theorem pipeline_success_stops_session_once :
  (forall m, fst from_database = Ok m ->
             stop_count (snd from_database) = 1%nat
             /\ calculated (snd from_database) = [m])
  /\ (forall m, fst from_file = Ok m ->
                stop_count (snd from_file) = 1%nat
                /\ calculated (snd from_file) = [m])
  /\ (never_raises env ->
      (exists m, fst from_database = Ok m) /\ (exists m, fst from_file = Ok m)).
Proof.
  split; [exact database_pipeline_success|].
  split; [exact file_pipeline_success|].
  intro Hnr.
  destruct (database_pipeline_total Hnr) as (m1 & H1 & _).
  destruct (file_pipeline_total Hnr) as (m2 & H2 & _).
  eauto.
Qed.

(** C5.  When record loading or the calculation raises, the exception is
    the outcome of the pipeline function and [session.stop()] is not
    called. *)
Theorem pipeline_failure_leaves_session_unreleased (e : exn) :
  (In e (load_or_calculate_failures (snd from_database)) ->
   fst from_database = Raise e /\ stop_count (snd from_database) = 0%nat)
  /\ (In e (load_or_calculate_failures (snd from_file)) ->
      fst from_file = Raise e /\ stop_count (snd from_file) = 0%nat).
Proof.
  split; [exact (@database_pipeline_failure e) | exact (@file_pipeline_failure e)].
Qed.

End PipelineFacts.

(** ** The result sink *)

Section SinkFacts.

Context `{Collaborators}.

Import Py.
Local Open Scope string_scope.
Local Open Scope list_scope.

(** One member of the output object per item of the bunch map. *)
Let member (item : Calendar.date * bunch) : string * json :=
  (Calendar.strftime (fst item), to_dict (snd item)).

Lemma dict_set_fresh (k : string) (v : json) (d : list (string * json)) :
  ~ In k (map fst d) -> dict_set k v d = d ++ [(k, v)].
Proof.
  induction d as [|[k' v'] d IH]; cbn [dict_set map fst In app]; intro Hk.
  - reflexivity.
  - destruct (String.eqb_spec k' k) as [-> | _]; [tauto|].
    rewrite IH by tauto. reflexivity.
Qed.

Lemma sink_document_from (items : bunch_map) :
  forall acc : list (string * json),
    NoDup (map fst acc ++ map (fun item => Calendar.strftime (fst item)) items) ->
    fold_left
      (fun result item =>
         dict_set (Calendar.strftime (fst item)) (to_dict (snd item)) result)
      items acc
    = acc ++ map member items.
Proof.
  induction items as [|item items IH]; intros acc Hnd; cbn [fold_left map].
  - now rewrite app_nil_r.
  - cbn [map] in Hnd.
    rewrite dict_set_fresh.
    + rewrite IH.
      * rewrite <- app_assoc. reflexivity.
      * rewrite map_app. cbn [map fst]. rewrite <- app_assoc. exact Hnd.
    + apply NoDup_remove_2 in Hnd. intro Hin. apply Hnd.
      apply in_or_app. now left.
Qed.

Lemma formatted_keys_distinct (items : bunch_map) :
  NoDup (map fst items) ->
  Forall Calendar.valid_date (map fst items) ->
  NoDup (map (fun item => Calendar.strftime (fst item)) items).
Proof.
  induction items as [|[d b] items IH]; cbn [map fst]; intros Hnd Hval.
  - constructor.
  - inversion Hnd as [|? ? Hnotin Hnd']; subst.
    inversion Hval as [|? ? Hd Hval']; subst.
    constructor; [|now apply IH].
    intro Hin. apply in_map_iff in Hin. destruct Hin as ([d' b'] & Heq & Hin).
    cbn [fst] in Heq. apply Hnotin.
    assert (Hd' : Calendar.valid_date d').
    { rewrite Forall_forall in Hval'. apply Hval'.
      apply in_map_iff. exists (d', b'). auto. }
    apply strftime_inj in Heq; [|assumption..]. subst d'.
    apply in_map_iff. exists (d, b'). auto.
Qed.

Lemma sink_document_members (items : bunch_map) :
  NoDup (map fst items) ->
  Forall Calendar.valid_date (map fst items) ->
  sink_document items = map member items.
Proof.
  intros Hnd Hval. unfold sink_document.
  rewrite sink_document_from; [reflexivity|].
  cbn [map app]. now apply formatted_keys_distinct.
Qed.

Lemma run_finally_calls (X : Type) (env : oracle) (past : list entry)
    (ev : eventE X) (cleanup : eventE unit) :
  run env past (finally (call ev) (call cleanup)) =
  let r := env X past ev in
  let c := env unit (Entry ev r :: past) cleanup in
  (match c with Ok _ => r | Raise e => Raise e end,
   [Entry ev r; Entry cleanup c]).
Proof.
  unfold call. cbn [finally run]. cbv zeta.
  destruct (env X past ev) as [x | e]; cbn [lift finally bind run fst snd];
    destruct (env unit _ cleanup) as [u | e']; reflexivity.
Qed.

(** C1, as amended.  With output type ["file"] the sink opens the output
    file for writing and dumps one JSON object into it: one member per
    item of the bunch map, in the map's order, keyed by the date as
    [strftime("%Y-%m-%d")] writes it and holding [to_dict()] of the bunch;
    then it closes the file.  If the file cannot be opened nothing is
    written.  The key of a date is a YYYY-MM-DD string, and the one of
    that date, exactly when the year is 1000 or later: an earlier year is
    written without leading zeros. *)
Theorem sink_file_writes_every_bunch (env : oracle) (past : list entry)
    (items : bunch_map) (kw : kwargs) (path : value) :
  NoDup (map fst items) ->
  Forall Calendar.valid_date (map fst items) ->
  kwargs_getitem kw "output_file" = Ok path ->
  let out := run env past (_sink_result (PyStr "file") items kw) in
  let document :=
    JObj (map (fun item => (Calendar.strftime (fst item), to_dict (snd item)))
              items) in
  match env file past (FileOpen path "w") with
  | Ok f =>
      dumped (snd out) = [document]
      /\ exists written closed,
           snd out = [Entry (FileOpen path "w") (Ok f);
                      Entry (JsonDump document f) written;
                      Entry (FileClose f) closed]
  | Raise e => out = (Raise e, [Entry (FileOpen path "w") (Raise e)])
  end
  /\ Forall (fun item =>
               let d := fst item in
               ((1000 <= Calendar.year d)%Z ->
                Calendar.canonical_ymd (Calendar.strftime d)
                = Some (Calendar.year d, Calendar.month d, Calendar.day d))
               /\ ((Calendar.year d < 1000)%Z ->
                   Calendar.canonical_ymd (Calendar.strftime d) = None))
            items.
Proof.
  intros Hnd Hval Hkw. cbv zeta. split.
  2:{ rewrite Forall_map in Hval. eapply Forall_impl; [|exact Hval].
      intros item Hitem. split.
      - now apply canonical_strftime.
      - apply short_year_not_canonical. }
  unfold _sink_result. cbn [eq_str]. 
  change ("file" =? "print") with false. change ("file" =? "file") with true.
  cbn iota. rewrite run_lift_bind, Hkw, run_call_bind.
  destruct (env file past (FileOpen path "w")) as [f | e]; [|reflexivity].
  rewrite run_finally_calls. cbv zeta. cbn [fst snd dumped].
  rewrite sink_document_members by assumption.
  split; [reflexivity | eauto].
Qed.

(** The calls of a printing loop are traversals of the bunches, in order,
    each at most once. *)
Lemma print_loop_prefix (env : oracle) (items : bunch_map) :
  forall past,
    let out := run env past
                 (for_each items
                    (fun item => call (PreOrderTravel (snd item) SimplePrintVisitor))) in
    exists rest, map snd items = traversed (snd out) ++ rest.
Proof.
  induction items as [|[d b] items IH]; intro past; cbv zeta; cbn [for_each].
  - exists []. reflexivity.
  - rewrite run_call_bind. cbn [snd map].
    destruct (env unit past (PreOrderTravel b SimplePrintVisitor)) as [u | e];
      cbn [fst snd traversed].
    + destruct (IH (Entry (PreOrderTravel b SimplePrintVisitor) (Ok u) :: past))
        as [rest Hrest].
      exists rest. cbn [app]. f_equal. exact Hrest.
    + exists (map snd items). reflexivity.
Qed.

Lemma print_loop_complete (env : oracle) (items : bunch_map) :
  (forall past b, exists u, env unit past (PreOrderTravel b SimplePrintVisitor) = Ok u) ->
  forall past,
    let out := run env past
                 (for_each items
                    (fun item => call (PreOrderTravel (snd item) SimplePrintVisitor))) in
    fst out = Ok tt
    /\ traversed (snd out) = map snd items
    /\ List.length (snd out) = List.length items.
Proof.
  intro Hok.
  induction items as [|[d b] items IH]; intro past; cbv zeta; cbn [for_each].
  - repeat split.
  - rewrite run_call_bind. cbn [snd map].
    destruct (Hok past b) as [u Hu]. rewrite Hu. cbn [fst snd traversed List.length].
    destruct (IH (Entry (PreOrderTravel b SimplePrintVisitor) (Ok u) :: past))
      as (Hout & Htr & Hlen).
    repeat split; congruence.
Qed.

(** C6.  With output type ["print"] the sink traverses the bunches of the
    map in the map's order, each at most once; when no traversal fails it
    traverses every bunch exactly once and makes no other call. *)
Theorem sink_print_traverses_every_bunch_once (env : oracle)
    (past : list entry) (items : bunch_map) (kw : kwargs) :
  let out := run env past (_sink_result (PyStr "print") items kw) in
  (exists rest, map snd items = traversed (snd out) ++ rest)
  /\ ((forall past' b,
         exists u, env unit past' (PreOrderTravel b SimplePrintVisitor) = Ok u) ->
      fst out = Ok tt
      /\ traversed (snd out) = map snd items
      /\ List.length (snd out) = List.length items).
Proof.
  cbv zeta. unfold _sink_result. cbn [eq_str].
  change ("print" =? "print") with true. cbn iota.
  split; [apply print_loop_prefix|].
  intro Hok. now apply print_loop_complete.
Qed.

End SinkFacts.

(** ** The two commands *)

Section CommandFacts.

Context `{Collaborators}.

Import Py.
Local Open Scope string_scope.
Local Open Scope list_scope.

Lemma rmdb_loads_app (t1 t2 : list entry) :
  rmdb_loads (t1 ++ t2) = rmdb_loads t1 ++ rmdb_loads t2.
Proof.
  induction t1 as [|[X ev r] t1 IH]; [reflexivity|].
  destruct ev; cbn [app rmdb_loads]; rewrite IH; reflexivity.
Qed.

Lemma file_loads_app (t1 t2 : list entry) :
  file_loads (t1 ++ t2) = file_loads t1 ++ file_loads t2.
Proof.
  induction t1 as [|[X ev r] t1 IH]; [reflexivity|].
  destruct ev; cbn [app file_loads]; rewrite IH; reflexivity.
Qed.

(** The sink loads no records. *)
Lemma print_loop_loads (env : oracle) (items : bunch_map) :
  forall past,
    let tr := snd (run env past
                     (for_each items
                        (fun item => call (PreOrderTravel (snd item) SimplePrintVisitor)))) in
    rmdb_loads tr = [] /\ file_loads tr = [].
Proof.
  induction items as [|[d b] items IH]; intro past; cbv zeta; cbn [for_each].
  - split; reflexivity.
  - rewrite run_call_bind. cbn [snd].
    destruct (env unit past (PreOrderTravel b SimplePrintVisitor)) as [u | e];
      cbn [fst snd rmdb_loads file_loads]; [apply IH | split; reflexivity].
Qed.

Lemma sink_loads (env : oracle) (past : list entry) (output_type : value)
    (items : bunch_map) (kw : kwargs) :
  let tr := snd (run env past (_sink_result output_type items kw)) in
  rmdb_loads tr = [] /\ file_loads tr = [].
Proof.
  cbv zeta. unfold _sink_result.
  destruct (eq_str output_type "print"); [apply print_loop_loads|].
  destruct (eq_str output_type "file"); [|split; reflexivity].
  rewrite run_lift_bind.
  destruct (kwargs_getitem kw "output_file") as [path | e]; [|split; reflexivity].
  rewrite run_call_bind.
  destruct (env file past (FileOpen path "w")) as [f | e]; [|split; reflexivity].
  rewrite run_finally_calls. split; reflexivity.
Qed.

(** The command [database] once its dates are read. *)
Lemma database_reads (owner repo repo_type : string)
    (begin_date end_date : option string) (config_file output_type : string)
    (output_file : option string) (b e : value) :
  normalize_date (of_option begin_date) = Ok b ->
  normalize_date (of_option end_date) = Ok e ->
  database owner repo repo_type begin_date end_date config_file output_type output_file
  = bind (call (LoadConfig config_file)) (fun config =>
    bind (generate_node_tree_from_database config
            (PyStr owner) (PyStr repo) b e (PyStr repo_type)) (fun m =>
    _sink_result (PyStr output_type) m [("output_file", of_option output_file)])).
Proof.
  intros Hb He. unfold database. rewrite Hb, He. reflexivity.
Qed.

(** The command [file] once its task file is read. *)
Lemma cli_file_body_reads (config task : value) (tc : list (key * value))
    (log_file output_type output_file b e : value) :
  getitem task (KStr "task") = Ok (PyDict tc) ->
  source_ready task log_file ->
  sink_ready task output_type output_file ->
  normalize_date (dict_get (KStr "begin_date") PyNone tc) = Ok b ->
  normalize_date (dict_get (KStr "end_date") PyNone tc) = Ok e ->
  cli_file_body config task
  = bind (generate_node_tree_from_file config log_file
            (dict_get (KStr "owner") PyNone tc)
            (dict_get (KStr "repo") PyNone tc)
            b e
            (dict_get (KStr "workflow_type") (PyStr "ecflow") tc)) (fun m =>
    _sink_result output_type m [("output_file", output_file)]).
Proof.
  intros Htask (src & s0 & Hsrc & Hs0 & Hlog)
         (cur & (snk & Hsnk & Hcur & Htype) & Hfile) Hb He.
  unfold cli_file_body. rewrite Htask. cbn [lift bind get].
  rewrite Hsrc. cbn [lift bind]. rewrite Hs0. cbn [lift bind].
  rewrite Hlog. cbn [lift bind]. rewrite Hsnk. cbn [lift bind].
  rewrite Hcur. cbn [lift bind]. rewrite Htype. cbn [lift bind].
  rewrite Hb. cbn [lift bind]. rewrite He. cbn [lift bind].
  destruct Hfile as [(Hnot & ->) | (Hyes & Hpath & Hset)].
  - rewrite Hnot. reflexivity.
  - rewrite Hyes, Hpath. cbn [lift bind]. rewrite Hset. reflexivity.
Qed.

(** Each command loads records at most once, with the selection it
    computed, and exactly once when no collaborator fails. *)
Lemma database_loads (env : oracle) (past : list entry)
    (owner repo repo_type : string)
    (begin_date end_date : option string) (config_file output_type : string)
    (output_file : option string) (b e : value) :
  normalize_date (of_option begin_date) = Ok b ->
  normalize_date (of_option end_date) = Ok e ->
  loaded_once env
    (rmdb_loads (snd (run env past
                        (database owner repo repo_type begin_date end_date
                                  config_file output_type output_file))))
    (mkSelection (PyStr owner) (PyStr repo) b e (PyStr repo_type)).
Proof.
  intros Hb He. rewrite (database_reads _ _ _ _ _ _ _ _ Hb He).
  rewrite run_call_bind.
  assert (Hpipeline : forall config,
    loaded_once env
      (rmdb_loads
         (Entry (LoadConfig config_file) (Ok config)
          :: snd (run env (Entry (LoadConfig config_file) (Ok config) :: past)
                    (bind (generate_node_tree_from_database config
                             (PyStr owner) (PyStr repo) b e (PyStr repo_type))
                          (fun m =>
                             _sink_result (PyStr output_type) m
                               [("output_file", of_option output_file)])))))
      (mkSelection (PyStr owner) (PyStr repo) b e (PyStr repo_type))).
  { intro config. cbn [rmdb_loads]. rewrite run_bind.
    match goal with
    | |- context [run env ?p (generate_node_tree_from_database ?c ?o ?r ?bd ?ed ?t)] =>
        pose proof (database_pipeline_loads env p c o r bd ed t) as [Hloads _];
        pose proof (@database_pipeline_total _ env p c o r bd ed t) as Htotal
    end.
    split.
    - destruct (fst (run env _ (generate_node_tree_from_database _ _ _ _ _ _)));
        cbv zeta; cbn [fst snd]; [|exact Hloads].
      rewrite rmdb_loads_app.
      match goal with
      | |- context [run env ?p (_sink_result ?ot ?items ?kw)] =>
          destruct (sink_loads env p ot items kw) as [Hsink _]
      end.
      rewrite Hsink, app_nil_r. exact Hloads.
    - intro Hnr. destruct (Htotal Hnr) as (m & Hm & Hone & _).
      rewrite Hm. cbv zeta. cbn [fst snd]. rewrite rmdb_loads_app, Hone.
      match goal with
      | |- context [run env ?p (_sink_result ?ot ?items ?kw)] =>
          destruct (sink_loads env p ot items kw) as [Hsink _]
      end.
      rewrite Hsink. reflexivity. }
  destruct (env value past (LoadConfig config_file)) as [config | err] eqn:Hconfig.
  - cbn [fst snd]. apply Hpipeline.
  - cbn [fst snd rmdb_loads]. split; [now left|].
    intro Hnr. destruct (Hnr _ past (LoadConfig config_file)) as [x Hx].
    congruence.
Qed.

Lemma cli_file_body_loads (env : oracle) (past : list entry)
    (config task : value) (tc : list (key * value))
    (log_file output_type output_file b e : value) :
  getitem task (KStr "task") = Ok (PyDict tc) ->
  source_ready task log_file ->
  sink_ready task output_type output_file ->
  normalize_date (dict_get (KStr "begin_date") PyNone tc) = Ok b ->
  normalize_date (dict_get (KStr "end_date") PyNone tc) = Ok e ->
  loaded_once env
    (file_loads (snd (run env past (cli_file_body config task))))
    (log_file,
     mkSelection (dict_get (KStr "owner") PyNone tc)
                 (dict_get (KStr "repo") PyNone tc)
                 b e
                 (dict_get (KStr "workflow_type") (PyStr "ecflow") tc)).
Proof.
  intros Htask Hsource Hsink Hb He.
  rewrite (cli_file_body_reads config Htask Hsource Hsink Hb He).
  rewrite run_bind.
  match goal with
  | |- context [run env ?p (generate_node_tree_from_file ?c ?l ?o ?r ?bd ?ed ?t)] =>
      pose proof (file_pipeline_loads env p c l o r bd ed t) as [Hloads _];
      pose proof (@file_pipeline_total _ env p c l o r bd ed t) as Htotal
  end.
  split.
  - destruct (fst (run env _ (generate_node_tree_from_file _ _ _ _ _ _ _)));
      cbv zeta; cbn [fst snd]; [|exact Hloads].
    rewrite file_loads_app.
    match goal with
    | |- context [run env ?p (_sink_result ?ot ?items ?kw)] =>
        destruct (sink_loads env p ot items kw) as [_ Hnone]
    end.
    rewrite Hnone, app_nil_r. exact Hloads.
  - intro Hnr. destruct (Htotal Hnr) as (m & Hm & Hone & _).
    rewrite Hm. cbv zeta. cbn [fst snd]. rewrite file_loads_app, Hone.
    match goal with
    | |- context [run env ?p (_sink_result ?ot ?items ?kw)] =>
        destruct (sink_loads env p ot items kw) as [_ Hnone]
    end.
    rewrite Hnone. reflexivity.
Qed.

(** Reads the next item of the task file; a failed read ends the
    command. *)
Ltac read_or_fail :=
  match goal with
  | |- exists e, bind (lift ?r) _ = Throw e =>
      let E := fresh "E" in
      destruct r eqn:E; cbn [lift bind]; [|solve [eauto]]
  end.

Lemma normalize_date_str (s : string) :
  s <> "" -> normalize_date (PyStr s) = Py.strptime (PyStr s).
Proof.
  intro Hs. unfold normalize_date. cbn [truthy].
  apply String.eqb_neq in Hs. rewrite Hs. reflexivity.
Qed.

Lemma canonical_ymd_nonempty (s : string) (t : Z * Z * Z) :
  Calendar.canonical_ymd s = Some t -> s <> "".
Proof. intros Hc ->. discriminate Hc. Qed.

(** A date string that is rejected ends the command [file] before the
    pipeline, whatever the rest of the task file holds. *)
Lemma cli_file_body_bad_date (config task : value) (tc : list (key * value))
    (s : string) (e : exn) :
  getitem task (KStr "task") = Ok (PyDict tc) ->
  dict_get (KStr "begin_date") PyNone tc = PyStr s
  \/ dict_get (KStr "end_date") PyNone tc = PyStr s ->
  normalize_date (PyStr s) = Raise e ->
  exists e', cli_file_body config task = Throw e'.
Proof.
  intros Htask Hdate Hbad. unfold cli_file_body. rewrite Htask.
  cbn [lift bind get]. do 6 read_or_fail.
  destruct Hdate as [Hdate | Hdate]; rewrite Hdate, ?Hbad; cbn [lift bind]; eauto.
  read_or_fail. eauto.
Qed.

(** C2, as amended.  When the first sink descriptor has type ["file"] and
    its [file_path] is absent, [None] or empty, the command [file] raises
    before it makes any call, so the pipeline function is not invoked; the
    exception is [BadArgumentUsage] when the [task] section, the first
    source descriptor and the two dates were read without error. *)
Theorem file_sink_without_path_fails_early (config task current_sink_config : value) :
  first_sink task current_sink_config (PyStr "file") ->
  get current_sink_config (KStr "file_path") PyNone = Ok PyNone
  \/ get current_sink_config (KStr "file_path") PyNone = Ok (PyStr "") ->
  (exists e,
     cli_file_body config task = Throw e
     /\ forall env past, run env past (cli_file_body config task) = (Raise e, []))
  /\ (forall tc log_file b e,
        getitem task (KStr "task") = Ok (PyDict tc) ->
        source_ready task log_file ->
        normalize_date (dict_get (KStr "begin_date") PyNone tc) = Ok b ->
        normalize_date (dict_get (KStr "end_date") PyNone tc) = Ok e ->
        cli_file_body config task
        = Throw (BadArgumentUsage output_file_must_be_set)).
Proof.
  intros (snk & Hsnk & Hcur & Htype) Hpath. split.
  - assert (Hthrow : exists e, cli_file_body config task = Throw e).
    { unfold cli_file_body. do 9 read_or_fail.
      rewrite Hsnk. cbn [lift bind]. rewrite Hcur. cbn [lift bind].
      rewrite Htype. cbn [lift bind]. do 2 read_or_fail.
      cbn [eq_str]. change ("file" =? "file") with true. cbn iota.
      destruct Hpath as [Hpath | Hpath]; rewrite Hpath; cbn; eauto. }
    destruct Hthrow as [e He]. exists e. split; [exact He|].
    intros env past. rewrite He. reflexivity.
  - intros tc log_file b e Htask (src & s0 & Hsrc & Hs0 & Hlog) Hb He.
    unfold cli_file_body. rewrite Htask. cbn [lift bind get].
    rewrite Hsrc. cbn [lift bind]. rewrite Hs0. cbn [lift bind].
    rewrite Hlog. cbn [lift bind]. rewrite Hsnk. cbn [lift bind].
    rewrite Hcur. cbn [lift bind]. rewrite Htype. cbn [lift bind].
    rewrite Hb. cbn [lift bind]. rewrite He. cbn [lift bind].
    cbn [eq_str]. change ("file" =? "file") with true. cbn iota.
    destruct Hpath as [Hpath | Hpath]; rewrite Hpath; reflexivity.
Qed.

(** C3, as amended.  A valid YYYY-MM-DD string is parsed to its date at
    midnight.  A string that is not empty and whose characters do not read
    as a day of the calendar is rejected with [ValueError]: the command
    [database] then ends with that error before it makes any call, and the
    command [file] ends with an error before the pipeline function is
    invoked.  To read as a day the string is a year of four decimal digits
    of any script, a hyphen, a month of one or two of the digits 0 to 9, a
    hyphen and a day of one or two of the digits 0 to 9, where the second
    digit of the days 10 to 29 may be of any script, or a blank and one of
    the digits 1 to 9 for the day. *)
Theorem date_option_parsing (s : string) :
  (forall y m d,
     Calendar.canonical_ymd s = Some (y, m, d) ->
     normalize_date (PyStr s) = Ok (PyDatetime (Calendar.midnight y m d)))
  /\ (s <> "" ->
      (forall y m d,
         Calendar.reads_as (Calendar.code_points s) y m d ->
         Calendar.check_date_fields y m d = false) ->
      normalize_date (PyStr s) = Raise PyValueError
      /\ (forall env past owner repo repo_type end_date config_file
                 output_type output_file,
            run env past
              (database owner repo repo_type (Some s) end_date
                        config_file output_type output_file)
            = (Raise PyValueError, []))
      /\ (forall env past owner repo repo_type begin_date b config_file
                 output_type output_file,
            normalize_date (of_option begin_date) = Ok b ->
            run env past
              (database owner repo repo_type begin_date (Some s)
                        config_file output_type output_file)
            = (Raise PyValueError, []))
      /\ (forall config task tc,
            getitem task (KStr "task") = Ok (PyDict tc) ->
            dict_get (KStr "begin_date") PyNone tc = PyStr s
            \/ dict_get (KStr "end_date") PyNone tc = PyStr s ->
            exists e, cli_file_body config task = Throw e)).
Proof.
  split.
  - intros y m d Hc.
    rewrite normalize_date_str by (eapply canonical_ymd_nonempty; eassumption).
    cbn [Py.strptime]. rewrite (strptime_canonical _ Hc). reflexivity.
  - intros Hs Hreject.
    assert (Hbad : normalize_date (PyStr s) = Raise PyValueError).
    { rewrite normalize_date_str by assumption. cbn [Py.strptime].
      destruct (Calendar.strptime s) as [dt | e] eqn:Hparse.
      - apply strptime_sound in Hparse.
        destruct Hparse as (y & m & d & Hreads & Hchk & _).
        rewrite (Hreject _ _ _ Hreads) in Hchk. discriminate Hchk.
      - apply strptime_raises in Hparse. now subst e. }
    split; [exact Hbad|]. split; [|split].
    + intros. unfold database. cbn [of_option]. rewrite Hbad. reflexivity.
    + intros env past owner repo repo_type begin_date b config_file
             output_type output_file Hb.
      unfold database. rewrite Hb. cbn [of_option lift bind].
      rewrite Hbad. reflexivity.
    + intros config task tc Htask Hdate.
      eapply cli_file_body_bad_date; eassumption.
Qed.

(** C7.  Two task files with the same [task] section, the same first
    source descriptor and the same first sink descriptor make the command
    [file] the same program: it behaves alike in every environment,
    whatever follows the first descriptors. *)
Theorem file_task_first_descriptors_only (config task1 task2 : value)
    (source0 sink0 : value) (sources1 sources2 sinks1 sinks2 : list value) :
  getitem task1 (KStr "task") = getitem task2 (KStr "task") ->
  getitem task1 (KStr "source") = Ok (PyList (source0 :: sources1)) ->
  getitem task2 (KStr "source") = Ok (PyList (source0 :: sources2)) ->
  getitem task1 (KStr "sink") = Ok (PyList (sink0 :: sinks1)) ->
  getitem task2 (KStr "sink") = Ok (PyList (sink0 :: sinks2)) ->
  cli_file_body config task1 = cli_file_body config task2
  /\ forall env past,
       run env past (cli_file_body config task1)
       = run env past (cli_file_body config task2).
Proof.
  intros Htask Hsrc1 Hsrc2 Hsnk1 Hsnk2.
  assert (Heq : cli_file_body config task1 = cli_file_body config task2).
  { unfold cli_file_body.
    rewrite Htask, Hsrc1, Hsrc2, Hsnk1, Hsnk2. cbn [lift bind].
    change (getitem (PyList (source0 :: sources1)) (KInt 0)) with (Ok source0).
    change (getitem (PyList (source0 :: sources2)) (KInt 0)) with (Ok source0).
    change (getitem (PyList (sink0 :: sinks1)) (KInt 0)) with (Ok sink0).
    change (getitem (PyList (sink0 :: sinks2)) (KInt 0)) with (Ok sink0).
    reflexivity. }
  split; [exact Heq|]. intros env past. rewrite Heq. reflexivity.
Qed.

(** C8.  The command [file] loads records with repo type ["ecflow"] when
    the [task] section has no [workflow_type], and with [None] for each of
    [owner], [repo], [begin_date] and [end_date] that the section does not
    have; the omission raises nothing, so that the load takes place
    whenever no collaborator fails. *)
Theorem file_task_defaults (env : oracle) (past : list entry)
    (config task : value) (tc : list (key * value))
    (log_file output_type output_file b e : value) :
  getitem task (KStr "task") = Ok (PyDict tc) ->
  source_ready task log_file ->
  sink_ready task output_type output_file ->
  normalize_date (dict_get (KStr "begin_date") PyNone tc) = Ok b ->
  normalize_date (dict_get (KStr "end_date") PyNone tc) = Ok e ->
  exists sel,
    loaded_once env
      (file_loads (snd (run env past (cli_file_body config task))))
      (log_file, sel)
    /\ (dict_lookup (KStr "workflow_type") tc = None ->
        sel_repo_type sel = PyStr "ecflow")
    /\ (dict_lookup (KStr "owner") tc = None -> sel_owner sel = PyNone)
    /\ (dict_lookup (KStr "repo") tc = None -> sel_repo sel = PyNone)
    /\ (dict_lookup (KStr "begin_date") tc = None -> sel_begin_date sel = PyNone)
    /\ (dict_lookup (KStr "end_date") tc = None -> sel_end_date sel = PyNone).
Proof.
  intros Htask Hsource Hsink Hb He.
  eexists. split.
  - apply (cli_file_body_loads env past config Htask Hsource Hsink Hb He).
  - cbn [sel_repo_type sel_owner sel_repo sel_begin_date sel_end_date].
    unfold dict_get in *.
    repeat split; intro Hnone; rewrite Hnone in *; try reflexivity.
    + cbn in Hb. congruence.
    + cbn in He. congruence.
Qed.

(** C9.  For an output type that is neither ["print"] nor ["file"] the
    sink returns at once: no call is made and no exception is raised.  The
    command [file] takes the type from the task file as it is, so that
    with such a type it runs the pipeline and then does nothing. *)
Theorem sink_other_output_type_is_silent (env : oracle) (past : list entry)
    (output_type : string) (items : bunch_map) (kw : kwargs) :
  output_type <> "print" ->
  output_type <> "file" ->
  _sink_result (PyStr output_type) items kw = Ret tt
  /\ run env past (_sink_result (PyStr output_type) items kw) = (Ok tt, [])
  /\ (forall config task tc current_sink_config log_file b e,
        getitem task (KStr "task") = Ok (PyDict tc) ->
        source_ready task log_file ->
        first_sink task current_sink_config (PyStr output_type) ->
        normalize_date (dict_get (KStr "begin_date") PyNone tc) = Ok b ->
        normalize_date (dict_get (KStr "end_date") PyNone tc) = Ok e ->
        cli_file_body config task
        = bind (generate_node_tree_from_file config log_file
                  (dict_get (KStr "owner") PyNone tc)
                  (dict_get (KStr "repo") PyNone tc)
                  b e
                  (dict_get (KStr "workflow_type") (PyStr "ecflow") tc))
               (fun _ => Ret tt)).
Proof.
  intros Hprint Hfile.
  apply String.eqb_neq in Hprint, Hfile.
  split; [|split].
  - unfold _sink_result. cbn [eq_str]. rewrite Hprint, Hfile. reflexivity.
  - unfold _sink_result. cbn [eq_str]. rewrite Hprint, Hfile. reflexivity.
  - intros config task tc cur log_file b e Htask Hsource Hsink Hb He.
    assert (Hready : sink_ready task (PyStr output_type) PyNone).
    { exists cur. split; [exact Hsink|]. left. split; [exact Hfile | reflexivity]. }
    rewrite (cli_file_body_reads config Htask Hsource Hready Hb He).
    unfold _sink_result. cbn [eq_str]. rewrite Hprint, Hfile. reflexivity.
Qed.

(** C10.  An empty string given as begin date or as end date passes the
    guard unparsed and is the begin date (the end date) that record
    loading receives, in both commands. *)
Theorem empty_date_is_forwarded (env : oracle) (past : list entry) :
  normalize_date (PyStr "") = Ok (PyStr "")
  /\ (forall owner repo repo_type end_date e config_file output_type output_file,
        normalize_date (of_option end_date) = Ok e ->
        loaded_once env
          (rmdb_loads (snd (run env past
                              (database owner repo repo_type (Some "") end_date
                                        config_file output_type output_file))))
          (mkSelection (PyStr owner) (PyStr repo) (PyStr "") e (PyStr repo_type)))
  /\ (forall owner repo repo_type begin_date b config_file output_type output_file,
        normalize_date (of_option begin_date) = Ok b ->
        loaded_once env
          (rmdb_loads (snd (run env past
                              (database owner repo repo_type begin_date (Some "")
                                        config_file output_type output_file))))
          (mkSelection (PyStr owner) (PyStr repo) b (PyStr "") (PyStr repo_type)))
  /\ (forall config task tc log_file output_type output_file e,
        getitem task (KStr "task") = Ok (PyDict tc) ->
        source_ready task log_file ->
        sink_ready task output_type output_file ->
        dict_get (KStr "begin_date") PyNone tc = PyStr "" ->
        normalize_date (dict_get (KStr "end_date") PyNone tc) = Ok e ->
        exists sel,
          loaded_once env
            (file_loads (snd (run env past (cli_file_body config task))))
            (log_file, sel)
          /\ sel_begin_date sel = PyStr "" /\ sel_end_date sel = e)
  /\ (forall config task tc log_file output_type output_file b,
        getitem task (KStr "task") = Ok (PyDict tc) ->
        source_ready task log_file ->
        sink_ready task output_type output_file ->
        normalize_date (dict_get (KStr "begin_date") PyNone tc) = Ok b ->
        dict_get (KStr "end_date") PyNone tc = PyStr "" ->
        exists sel,
          loaded_once env
            (file_loads (snd (run env past (cli_file_body config task))))
            (log_file, sel)
          /\ sel_begin_date sel = b /\ sel_end_date sel = PyStr "").
Proof.
  split; [reflexivity|]. split; [|split; [|split]].
  - intros. now apply database_loads.
  - intros. now apply database_loads.
  - intros config task tc log_file output_type output_file e
           Htask Hsource Hsink Hbegin Hend.
    assert (Hb : normalize_date (dict_get (KStr "begin_date") PyNone tc)
                 = Ok (PyStr "")) by (rewrite Hbegin; reflexivity).
    eexists. split.
    + apply (cli_file_body_loads env past config Htask Hsource Hsink Hb Hend).
    + split; reflexivity.
  - intros config task tc log_file output_type output_file b
           Htask Hsource Hsink Hbegin Hend.
    assert (He : normalize_date (dict_get (KStr "end_date") PyNone tc)
                 = Ok (PyStr "")) by (rewrite Hend; reflexivity).
    eexists. split.
    + apply (cli_file_body_loads env past config Htask Hsource Hsink Hbegin He).
    + split; reflexivity.
Qed.

End CommandFacts.

(** ** Sample runs *)

Section SampleRuns.

Import Py.
Local Open Scope string_scope.
Local Open Scope list_scope.

Lemma sample_env_never_raises (task : value) :
  @never_raises Sample.collaborators (Sample.env task).
Proof.
  intros X past ev. destruct ev; cbn [Sample.env];
    try (eexists; reflexivity).
  destruct (config_file =? "task.yml"); eexists; reflexivity.
Qed.

Lemma sample_source_ready :
  source_ready Sample.task_print (PyStr "a.log").
Proof. do 2 eexists. repeat split; reflexivity. Qed.

Lemma sample_sink_ready :
  sink_ready Sample.task_print (PyStr "print") PyNone.
Proof.
  exists (Sample.sink_of_type "print"). split.
  - eexists. repeat split; reflexivity.
  - left. split; reflexivity.
Qed.

(** C1 on a map of two days written to ["out.json"]. *)
Lemma sink_file_writes_every_bunch_witness :
  dumped (snd (run (Sample.env PyNone) []
                 (_sink_result (PyStr "file") Sample.two_days
                               [("output_file", PyStr "out.json")])))
  = [JObj [("2020-01-01", JNum 7); ("2020-01-02", JNum 8)]].
Proof.
  assert (Hnd : NoDup (map fst Sample.two_days)).
  { repeat constructor; simpl; intuition discriminate. }
  assert (Hval : Forall Calendar.valid_date (map fst Sample.two_days)).
  { repeat constructor. }
  pose proof (@sink_file_writes_every_bunch Sample.collaborators
                (Sample.env PyNone) [] Sample.two_days
                [("output_file", PyStr "out.json")] (PyStr "out.json")
                Hnd Hval eq_refl) as Hw.
  exact (proj1 (proj1 Hw)).
Defined.

(** C1 as stated fails: the bunch of the last day of the year 999 is
    written under the key ["999-12-31"], which is not a YYYY-MM-DD
    string. *)
Lemma sink_file_key_of_early_year :
  Calendar.valid_date Sample.early_day
  /\ dumped (snd (run (Sample.env PyNone) []
                    (_sink_result (PyStr "file") Sample.one_early_day
                                  [("output_file", PyStr "out.json")])))
     = [JObj [("999-12-31", JNum 7)]]
  /\ Calendar.canonical_ymd "999-12-31" = None.
Proof. repeat split; reflexivity. Qed.

(** C2, as amended, on a task whose only fault is the missing path. *)
Lemma file_sink_without_path_fails_early_witness :
  @cli_file_body Sample.collaborators PyNone Sample.task_no_path
  = Throw (BadArgumentUsage output_file_must_be_set).
Proof.
  assert (Hsink : first_sink Sample.task_no_path (Sample.sink_of_type "file")
                             (PyStr "file")).
  { eexists. repeat split; reflexivity. }
  assert (Hsource : source_ready Sample.task_no_path (PyStr "a.log")).
  { do 2 eexists. repeat split; reflexivity. }
  pose proof (@file_sink_without_path_fails_early Sample.collaborators
                PyNone Sample.task_no_path (Sample.sink_of_type "file")
                Hsink (or_introl eq_refl)) as [_ Hw].
  exact (Hw [] (PyStr "a.log") PyNone PyNone eq_refl Hsource eq_refl eq_refl).
Defined.

(** C2 as stated fails: the first sink descriptor has type ["file"] and no
    [file_path], yet the command ends with the [ValueError] of the begin
    date, which is parsed first. *)
Lemma file_sink_error_preempted_by_date_error :
  first_sink Sample.task_no_path_bad_date (Sample.sink_of_type "file")
             (PyStr "file")
  /\ get (Sample.sink_of_type "file") (KStr "file_path") PyNone = Ok PyNone
  /\ run (Sample.env Sample.task_no_path_bad_date) []
         (cli_file "config.yml" "task.yml")
     = (Raise PyValueError,
        [Entry (LoadConfig "config.yml") (Ok (PyDict []));
         Entry (LoadConfig "task.yml") (Ok Sample.task_no_path_bad_date)])
  /\ forall message,
       fst (run (Sample.env Sample.task_no_path_bad_date) []
                (cli_file "config.yml" "task.yml"))
       <> Raise (BadArgumentUsage message).
Proof.
  split; [eexists; repeat split; reflexivity|].
  split; [reflexivity|]. split; [reflexivity|].
  intros message Heq. vm_compute in Heq. discriminate Heq.
Qed.

Lemma slashes_do_not_read_as_a_date (y m d : Z) :
  Calendar.reads_as (Calendar.code_points "2020/01/01") y m d ->
  Calendar.check_date_fields y m d = false.
Proof.
  intros (Y & M & D & Heq & HlenY & _).
  destruct Y as [|a [|b [|c [|d0 [|x Y]]]]]; try discriminate HlenY.
  vm_compute in Heq. discriminate Heq.
Qed.

(** A month in Arabic-Indic digits does not read as a month. *)
Lemma arabic_month_does_not_read_as_a_date (y m d : Z) :
  Calendar.reads_as (Calendar.code_points Sample.arabic_month) y m d ->
  Calendar.check_date_fields y m d = false.
Proof.
  intros (Y & M & D & Heq & HlenY & _ & _ & (HlenM & HnumM & _) & _).
  destruct Y as [|a [|b [|c [|d0 [|x Y]]]]]; try discriminate HlenY.
  vm_compute in Heq.
  destruct M as [|e M]; [destruct HlenM as [HlenM | HlenM]; discriminate HlenM|].
  injection Heq as _ _ _ _ He _. subst e.
  inversion HnumM as [|? ? He _]. discriminate He.
Qed.

(** C3, as amended, on a valid date, on a date written with slashes and
    on a date whose month is in Arabic-Indic digits. *)
Lemma date_option_parsing_witness :
  normalize_date (PyStr "2020-02-29")
  = Ok (PyDatetime (Calendar.midnight 2020 2 29))
  /\ run (Sample.env PyNone) []
         (database "wangdp" "grapes" "ecflow" (Some "2020/01/01") None
                   "config.yml" "print" None)
     = (Raise PyValueError, [])
  /\ normalize_date (PyStr Sample.arabic_month) = Raise PyValueError.
Proof.
  split; [|split].
  - exact (proj1 (@date_option_parsing Sample.collaborators "2020-02-29") 2020%Z 2%Z 29%Z eq_refl).
  - assert (Hs : "2020/01/01" <> "") by discriminate.
    pose proof (proj2 (@date_option_parsing Sample.collaborators "2020/01/01") Hs
                  slashes_do_not_read_as_a_date) as (_ & Hw & _).
    apply Hw.
  - assert (Hs : Sample.arabic_month <> "") by discriminate.
    exact (proj1 (proj2 (@date_option_parsing Sample.collaborators Sample.arabic_month)
                    Hs arabic_month_does_not_read_as_a_date)).
Defined.

(** C3 as stated fails: the empty string, ["2020-1-5"], a date with the
    year in fullwidth digits and a date whose day ends in an Arabic-Indic
    digit are not valid YYYY-MM-DD strings, yet none is rejected; the
    first is kept as it is and the run goes on, the others are parsed. *)
Lemma malformed_date_not_always_rejected :
  Calendar.canonical_ymd "" = None
  /\ normalize_date (PyStr "") = Ok (PyStr "")
  /\ fst (run (Sample.env PyNone) []
              (database "wangdp" "grapes" "ecflow" (Some "") None
                        "config.yml" "print" None)) = Ok tt
  /\ Calendar.canonical_ymd "2020-1-5" = None
  /\ normalize_date (PyStr "2020-1-5")
     = Ok (PyDatetime (Calendar.midnight 2020 1 5))
  /\ Calendar.canonical_ymd Sample.fullwidth_year = None
  /\ normalize_date (PyStr Sample.fullwidth_year)
     = Ok (PyDatetime (Calendar.midnight 2020 1 1))
  /\ Calendar.canonical_ymd Sample.arabic_day_digit = None
  /\ normalize_date (PyStr Sample.arabic_day_digit)
     = Ok (PyDatetime (Calendar.midnight 2020 1 15)).
Proof. repeat split; reflexivity. Qed.

(** C4 in the environment where every call succeeds. *)
Lemma pipeline_success_stops_session_once_witness :
  let out := run (Sample.env PyNone) []
               (generate_node_tree_from_database PyNone (PyStr "wangdp")
                  (PyStr "grapes") PyNone PyNone (PyStr "ecflow")) in
  fst out = Ok Sample.two_days
  /\ stop_count (snd out) = 1%nat
  /\ calculated (snd out) = [Sample.two_days].
Proof.
  split; [reflexivity|].
  exact (proj1 (@pipeline_success_stops_session_once Sample.collaborators
                  (Sample.env PyNone) [] PyNone PyNone (PyStr "wangdp")
                  (PyStr "grapes") PyNone PyNone (PyStr "ecflow"))
               Sample.two_days eq_refl).
Defined.

(** C5 in the environment where record loading fails. *)
Lemma pipeline_failure_leaves_session_unreleased_witness :
  let out := run Sample.env_load_fails []
               (generate_node_tree_from_file PyNone (PyStr "a.log")
                  PyNone PyNone PyNone PyNone (PyStr "ecflow")) in
  load_or_calculate_failures (snd out) = [OtherError "load"]
  /\ fst out = Raise (OtherError "load")
  /\ stop_count (snd out) = 0%nat.
Proof.
  split; [reflexivity|].
  exact (proj2 (@pipeline_failure_leaves_session_unreleased Sample.collaborators
                  Sample.env_load_fails [] PyNone (PyStr "a.log")
                  PyNone PyNone PyNone PyNone (PyStr "ecflow")
                  (OtherError "load"))
               (or_introl eq_refl)).
Defined.

(** C6 on a map of two days. *)
Lemma sink_print_traverses_every_bunch_once_witness :
  let out := run (Sample.env PyNone) []
               (_sink_result (PyStr "print") Sample.two_days []) in
  fst out = Ok tt
  /\ traversed (snd out) = [7%nat; 8%nat]
  /\ List.length (snd out) = 2%nat.
Proof.
  apply (proj2 (@sink_print_traverses_every_bunch_once Sample.collaborators
                  (Sample.env PyNone) [] Sample.two_days [])).
  intros past' b. exists tt. reflexivity.
Defined.

(** C7 on two task files that differ after the first descriptors. *)
Lemma file_task_first_descriptors_only_witness :
  @cli_file_body Sample.collaborators PyNone Sample.task_print
  = cli_file_body PyNone Sample.task_print_more.
Proof.
  exact (proj1 (@file_task_first_descriptors_only Sample.collaborators PyNone
                  Sample.task_print Sample.task_print_more
                  (Sample.log_source "a.log") (Sample.sink_of_type "print")
                  [] [Sample.log_source "b.log"] [] [Sample.file_sink "out.json"]
                  eq_refl eq_refl eq_refl eq_refl eq_refl)).
Defined.

(** C8 on a task file with an empty [task] section. *)
Lemma file_task_defaults_witness :
  exists sel,
    file_loads (snd (run (Sample.env Sample.task_print) []
                       (cli_file_body PyNone Sample.task_print)))
    = [(PyStr "a.log", sel)]
    /\ sel_repo_type sel = PyStr "ecflow"
    /\ sel_owner sel = PyNone /\ sel_repo sel = PyNone
    /\ sel_begin_date sel = PyNone /\ sel_end_date sel = PyNone.
Proof.
  destruct (@file_task_defaults Sample.collaborators
              (Sample.env Sample.task_print) [] PyNone Sample.task_print []
              (PyStr "a.log") (PyStr "print") PyNone PyNone PyNone
              eq_refl sample_source_ready sample_sink_ready eq_refl eq_refl)
    as (sel & [_ Hloads] & Htype & Howner & Hrepo & Hbegin & Hend).
  exists sel. split; [apply Hloads, sample_env_never_raises|].
  repeat split; auto.
Defined.

(** C9 on the output type ["xml"]. *)
Lemma sink_other_output_type_is_silent_witness :
  run (Sample.env PyNone) [] (_sink_result (PyStr "xml") Sample.two_days [])
  = (Ok tt, []).
Proof.
  assert (Hprint : "xml" <> "print") by discriminate.
  assert (Hfile : "xml" <> "file") by discriminate.
  exact (proj1 (proj2 (@sink_other_output_type_is_silent Sample.collaborators
                         (Sample.env PyNone) [] "xml" Sample.two_days []
                         Hprint Hfile))).
Defined.

(** C10 on the command [database] with an empty begin date. *)
Lemma empty_date_is_forwarded_witness :
  rmdb_loads (snd (run (Sample.env PyNone) []
                     (database "wangdp" "grapes" "ecflow" (Some "") None
                               "config.yml" "print" None)))
  = [mkSelection (PyStr "wangdp") (PyStr "grapes") (PyStr "") PyNone
                 (PyStr "ecflow")].
Proof.
  pose proof (@empty_date_is_forwarded Sample.collaborators (Sample.env PyNone) [])
    as (_ & Hw & _).
  apply (Hw "wangdp" "grapes" "ecflow" None PyNone "config.yml" "print" None
            eq_refl).
  apply sample_env_never_raises.
Defined.

End SampleRuns.

(** * Further properties *)

(** ** Dates read and written *)

Section DateFacts.

Import Calendar.
Import Py.
Local Open Scope Z_scope.
Local Open Scope list_scope.

(** The first match of an alternative and of a sequence of two classes. *)

Lemma alt_first (m1 m2 : matcher) (s : list N) (x : list N * list N)
    (l : list (list N * list N)) :
  m1 s = x :: l -> exists l', alt m1 m2 s = x :: l'.
Proof. intro H1. unfold alt. rewrite H1. eexists. reflexivity. Qed.

Lemma alt_skip (m1 m2 : matcher) (s : list N) :
  m1 s = [] -> alt m1 m2 s = m2 s.
Proof. intro H1. unfold alt. rewrite H1. reflexivity. Qed.

Lemma seq_cls_cls (p q : N -> bool) (a b : N) (r : list N) :
  p a = true -> q b = true -> seq (cls p) (cls q) (a :: b :: r) = [([a; b], r)].
Proof. intros Ha Hb. unfold seq, cls. rewrite Ha. simpl. rewrite Hb. reflexivity. Qed.

Lemma seq_cls_fail (p : N -> bool) (m : matcher) (a : N) (r : list N) :
  p a = false -> seq (cls p) m (a :: r) = [].
Proof. intro Ha. unfold seq, cls. rewrite Ha. reflexivity. Qed.

Lemma re_m_one (e : N) (r : list N) :
  in_range "0" "9" e = true -> 1 <= digit_value e ->
  exists l, re_m (e :: hyphen :: r) = ([e], hyphen :: r) :: l.
Proof.
  intros He Hm. digit_cases He; eval_digits; try lia; eexists; reflexivity.
Qed.

Lemma re_d_one (g : N) :
  in_range "0" "9" g = true -> 1 <= digit_value g ->
  exists l, re_d [g] = ([g], []) :: l.
Proof.
  intros Hg Hd. digit_cases Hg; eval_digits; try lia; eexists; reflexivity.
Qed.

Lemma re_d_blank (c : N) :
  in_range "1" "9" c = true ->
  exists l, re_d [blank; c] = ([blank; c], []) :: l.
Proof.
  intro Hc.
  assert (H09 : in_range "0" "9" c = true) by (char_facts; range_goal).
  digit_cases H09; try discriminate Hc; eexists; reflexivity.
Qed.

(** A day from 10 to 29 whose second digit is of any script. *)
Lemma re_d_any (g h : N) :
  in_range "1" "2" g = true -> is_digit h = true ->
  exists l, re_d [g; h] = ([g; h], []) :: l.
Proof.
  intros Hg Hh. unfold re_d, re_chr, re_rng, re_digit.
  rewrite alt_skip.
  - eapply alt_first. apply seq_cls_cls; assumption.
  - apply seq_cls_fail. unfold is_char. apply N.eqb_neq.
    char_facts. cbn. lia.
Qed.

(** The first match of the whole expression, given the first match of
    the month and of the day. *)
Lemma format_regex_first (a b c d : N) (M D : list N) :
  is_digit a = true -> is_digit b = true ->
  is_digit c = true -> is_digit d = true ->
  (exists l, re_m (M ++ hyphen :: D) = (M, hyphen :: D) :: l) ->
  (exists l, re_d D = (D, []) :: l) ->
  exists l,
    format_regex ([a; b; c; d] ++ hyphen :: M ++ hyphen :: D)
    = mkFound [a; b; c; d] M D [] :: l.
Proof.
  intros Ha Hb Hc Hd [lm Hm] [ld Hday].
  unfold format_regex. cbn [app].
  rewrite (@re_Y_digits a b c d _ Ha Hb Hc Hd).
  cbn [flat_map fst snd app].
  change (re_chr "-" (hyphen :: M ++ hyphen :: D))
    with [([hyphen], M ++ hyphen :: D)].
  cbn [flat_map fst snd app]. rewrite Hm.
  cbn [flat_map fst snd app].
  change (re_chr "-" (hyphen :: D)) with [([hyphen], D)].
  cbn [flat_map fst snd app]. rewrite Hday.
  cbn [map fst snd app]. eexists. reflexivity.
Qed.

Lemma ascii_numeral_one (c : N) : ascii_numeral [c] -> in_range "0" "9" c = true.
Proof. intro Hn. inversion Hn; assumption. Qed.

Lemma ascii_is_digit (c : N) : in_range "0" "9" c = true -> is_digit c = true.
Proof. intro Hc. char_facts. now apply ascii_digit_value. Qed.

(** Text that reads as a day of the calendar is accepted. *)
Lemma strptime_complete (s : string) (y m d : Z) :
  reads_as (code_points s) y m d ->
  check_date_fields y m d = true ->
  Calendar.strptime s = Ok (midnight y m d).
Proof.
  intros (Y & M & D & Hs & HlenY & HnumY & Hy & (HlenM & HnumM & Hm & Hmr) & HD) Hchk.
  destruct Y as [|a [|b [|c [|d0 [|x Y]]]]]; try discriminate HlenY.
  inversion HnumY as [|? ? Ha HnumY1]; subst.
  inversion HnumY1 as [|? ? Hb HnumY2]; subst.
  inversion HnumY2 as [|? ? Hc HnumY3]; subst.
  inversion HnumY3 as [|? ? Hd0 _]; subst.
  assert (Hmonth : exists l, re_m (M ++ hyphen :: D) = (M, hyphen :: D) :: l
                   /\ py_int M = decimal M).
  { destruct HlenM as [HlenM | HlenM].
    - destruct M as [|e [|x M]]; try discriminate HlenM.
      apply ascii_numeral_one in HnumM. rewrite decimal_one in Hmr.
      destruct (@re_m_one e D HnumM ltac:(lia)) as [l Hl].
      exists l. split; [exact Hl | now apply py_int_numeral, ascii_is_digit].
    - destruct M as [|e [|f [|x M]]]; try discriminate HlenM.
      inversion HnumM as [|? ? He HnumM1]; subst.
      apply ascii_numeral_one in HnumM1.
      destruct (@re_m_two e f (hyphen :: D) He HnumM1 Hmr) as [l Hl].
      exists l. split; [exact Hl | now apply py_int_numeral, ascii_is_digit]. }
  assert (Hday : exists l, re_d D = (D, []) :: l /\ py_int D = d).
  { destruct HD as [(HlenD & HnumD & Hd & Hdr)
                   | [(g & h & -> & Hg & Hh & Hd) | (c1 & -> & Hc1 & Hd)]].
    - destruct HlenD as [HlenD | HlenD].
      + destruct D as [|g [|x D]]; try discriminate HlenD.
        apply ascii_numeral_one in HnumD. subst d. rewrite decimal_one in Hdr.
        destruct (@re_d_one g HnumD ltac:(lia)) as [l Hl].
        exists l. split; [exact Hl | now apply py_int_numeral, ascii_is_digit].
      + destruct D as [|g [|h [|x D]]]; try discriminate HlenD.
        inversion HnumD as [|? ? Hg HnumD1]; subst.
        apply ascii_numeral_one in HnumD1.
        destruct (@re_d_two g h [] Hg HnumD1 Hdr) as [l Hl].
        exists l. split; [exact Hl | now apply py_int_numeral, ascii_is_digit].
    - subst d. destruct (@re_d_any g h Hg Hh) as [l Hl].
      exists l. split; [exact Hl|].
      apply py_int_numeral, ascii_is_digit. char_facts. range_goal.
    - subst d. destruct (@re_d_blank c1 Hc1) as [l Hl].
      exists l. split; [exact Hl|].
      apply py_int_blank, ascii_is_digit. char_facts. range_goal. }
  destruct Hmonth as (lm & Hlm & HintM). destruct Hday as (ld & Hld & HintD).
  destruct (@format_regex_first a b c d0 M D Ha Hb Hc Hd0
              (ex_intro _ lm Hlm) (ex_intro _ ld Hld)) as [l Hl].
  unfold Calendar.strptime. rewrite Hs, Hl.
  cbn [unconverted group_Y group_m group_d].
  rewrite (@py_int_numeral a [b; c; d0] Ha), HintM, HintD.
  rewrite Hchk. reflexivity.
Qed.

Lemma reads_as_nonempty (s : string) (y m d : Z) :
  reads_as (code_points s) y m d -> s <> ""%string.
Proof.
  intros (Y & M & D & Hs & _) ->. change (code_points "") with (@nil N) in Hs.
  destruct Y; discriminate Hs.
Qed.

(** X1.  A date option is turned into a datetime exactly when its
    characters read as a day of the calendar: a year of four decimal
    digits of any script, a month of one or two of the digits 0 to 9, a
    day of one or two of the digits 0 to 9 (the second digit of the days
    10 to 29 of any script) or a blank and one of the digits 1 to 9,
    separated by hyphens, naming an existing day of the years 1 to 9999;
    the datetime is that day at midnight. *)
Theorem date_option_accepted_iff (s : string) (dt : datetime) :
  normalize_date (PyStr s) = Ok (PyDatetime dt)
  <-> exists y m d,
        reads_as (code_points s) y m d
        /\ check_date_fields y m d = true
        /\ dt = midnight y m d.
Proof.
  split.
  - intro Hok. destruct (String.eqb_spec s "") as [-> | Hs]; [discriminate Hok|].
    rewrite normalize_date_str in Hok by assumption. cbn [Py.strptime] in Hok.
    destruct (Calendar.strptime s) as [dt' | e] eqn:Hparse; [|discriminate Hok].
    inversion Hok; subst dt'. now apply strptime_sound.
  - intros (y & m & d & Hreads & Hchk & ->).
    rewrite normalize_date_str by (eapply reads_as_nonempty; eassumption).
    cbn [Py.strptime]. rewrite (strptime_complete _ Hreads Hchk). reflexivity.
Qed.

(** X2.  What the guard and the parser make of any value: a falsy value
    ([None], [""], [0], [False], an empty list or mapping) is kept as it
    is; a string that is not empty becomes a datetime at midnight of an
    existing day or raises [ValueError]; any other truthy value raises
    [TypeError]. *)
Theorem normalize_date_outcomes (v : value) :
  match normalize_date v with
  | Ok w =>
      truthy v = false /\ w = v
      \/ exists s y m d,
           v = PyStr s /\ s <> ""%string
           /\ w = PyDatetime (midnight y m d)
           /\ check_date_fields y m d = true
  | Raise e =>
      truthy v = true
      /\ ((exists s, v = PyStr s) /\ e = PyValueError
          \/ (forall s, v <> PyStr s) /\ e = PyTypeError)
  end.
Proof.
  unfold normalize_date. destruct (truthy v) eqn:Htruthy; [|left; auto].
  destruct v as [| b | i | s | items | items | d0]; cbn [Py.strptime];
    try (split; [reflexivity|]; right; split; [intros s' Hs'; discriminate Hs' | reflexivity]).
  destruct (Calendar.strptime s) as [dt | e] eqn:Hparse.
  - right. apply strptime_sound in Hparse.
    destruct Hparse as (y & m & d & Hreads & Hchk & ->).
    exists s, y, m, d. repeat split; try assumption.
    eapply reads_as_nonempty; eassumption.
  - apply strptime_raises in Hparse. subst e.
    split; [reflexivity|]. left. split; [eauto | reflexivity].
Qed.

(** X3.  A key the file sink writes can be given back as a date option: it
    is parsed to the midnight of the date it was formatted from.  (Stated
    for the years from 1000 on, which are written in four digits.) *)
Theorem formatted_date_parses_back (d : date) :
  valid_date d ->
  1000 <= year d ->
  normalize_date (PyStr (strftime d))
  = Ok (PyDatetime (midnight (year d) (month d) (day d))).
Proof.
  intros Hvalid Hfour. pose proof (canonical_strftime Hvalid Hfour) as Hc.
  rewrite normalize_date_str by (eapply canonical_ymd_nonempty; eassumption).
  cbn [Py.strptime]. rewrite (strptime_canonical _ Hc). reflexivity.
Qed.

Lemma pad2_decimal (p q : ascii) :
  ascii_digit p = true -> ascii_digit q = true ->
  pad2 (ascii_decimal [p; q]) = [p; q].
Proof.
  intros Hp Hq. unfold pad2, ascii_decimal. cbn [fold_left].
  pose proof (ascii_digit_bounds _ Hp) as Bp.
  pose proof (ascii_digit_bounds _ Hq) as Bq.
  set (vp := Z.of_N (N_of_ascii p) - 48) in *.
  set (vq := Z.of_N (N_of_ascii q) - 48) in *.
  replace ((10 * (10 * 0 + vp) + vq) / 10 mod 10) with vp
    by (Z.div_mod_to_equations; lia).
  replace ((10 * (10 * 0 + vp) + vq) mod 10) with vq
    by (Z.div_mod_to_equations; lia).
  subst vp vq. rewrite !digit_char_value by assumption. reflexivity.
Qed.

Lemma pad4_decimal (a b c d : ascii) :
  ascii_digit a = true -> ascii_digit b = true ->
  ascii_digit c = true -> ascii_digit d = true ->
  pad4 (ascii_decimal [a; b; c; d]) = [a; b; c; d].
Proof.
  intros Ha Hb Hc Hd. unfold pad4, ascii_decimal. cbn [fold_left].
  pose proof (ascii_digit_bounds _ Ha) as Ba.
  pose proof (ascii_digit_bounds _ Hb) as Bb.
  pose proof (ascii_digit_bounds _ Hc) as Bc.
  pose proof (ascii_digit_bounds _ Hd) as Bd.
  set (va := Z.of_N (N_of_ascii a) - 48) in *.
  set (vb := Z.of_N (N_of_ascii b) - 48) in *.
  set (vc := Z.of_N (N_of_ascii c) - 48) in *.
  set (vd := Z.of_N (N_of_ascii d) - 48) in *.
  set (n := 10 * (10 * (10 * (10 * 0 + va) + vb) + vc) + vd).
  replace (n / 1000 mod 10) with va by (subst n; Z.div_mod_to_equations; lia).
  replace (n / 100 mod 10) with vb by (subst n; Z.div_mod_to_equations; lia).
  replace (n / 10 mod 10) with vc by (subst n; Z.div_mod_to_equations; lia).
  replace (n mod 10) with vd by (subst n; Z.div_mod_to_equations; lia).
  subst va vb vc vd. rewrite !digit_char_value by assumption. reflexivity.
Qed.

(** X4.  A valid YYYY-MM-DD string is the text its date is formatted to:
    parsing it and formatting the day gives the string back.  (Stated for
    the years from 1000 on, which are written in four digits.) *)
Theorem parsed_date_formats_back (s : string) (y m d : Z) :
  canonical_ymd s = Some (y, m, d) ->
  1000 <= y ->
  Calendar.strptime s = Ok (midnight y m d)
  /\ strftime (mkDate y m d) = s.
Proof.
  intros Hc Hfour. split; [now apply strptime_canonical|].
  revert Hc. unfold canonical_ymd.
  destruct (list_ascii_of_string s)
    as [|a [|b [|c [|d0 [|h1 [|e [|f [|h2 [|g [|h [|x l]]]]]]]]]]] eqn:Hlist;
    try discriminate.
  destruct (forallb ascii_digit [a; b; c; d0; e; f; g; h] && Ascii.eqb h1 "-"
            && Ascii.eqb h2 "-") eqn:Hform; [|discriminate].
  destruct (check_date_fields (ascii_decimal [a; b; c; d0]) (ascii_decimal [e; f])
              (ascii_decimal [g; h])) eqn:Hchk; [|discriminate].
  intro Heq. inversion Heq; subst y m d. clear Heq.
  apply andb_true_iff in Hform. destruct Hform as [Hform Hh2].
  apply andb_true_iff in Hform. destruct Hform as [Hdig Hh1].
  apply Ascii.eqb_eq in Hh1, Hh2. subst h1 h2.
  cbn [forallb] in Hdig. rewrite !andb_true_iff in Hdig.
  destruct Hdig as (Ha & Hb & Hc & Hd & He & Hf & Hg & Hh & _).
  rewrite <- (string_of_list_ascii_of_string s), Hlist.
  unfold strftime. f_equal. cbn [year month day].
  rewrite year_text_four by assumption.
  rewrite (@pad2_decimal e f He Hf), (@pad2_decimal g h Hg Hh).
  rewrite (@pad4_decimal a b c d0 Ha Hb Hc Hd). reflexivity.
Qed.

End DateFacts.

(** ** The calls of a pipeline function *)

Section PipelineCalls.

Context `{Collaborators}.

Import Py.
Local Open Scope list_scope.

Variable env : oracle.
Variable past : list entry.
Variables config log_file owner repo begin_date end_date repo_type : value.

Let from_database :=
  run env past (generate_node_tree_from_database
                  config owner repo begin_date end_date repo_type).
Let from_file :=
  run env past (generate_node_tree_from_file
                  config log_file owner repo begin_date end_date repo_type).

Ltac unit_answers :=
  repeat match goal with
    | u : unit |- _ => destruct u
    end.

(** X5.  A pipeline function that returns has made seven calls, in this
    order: the clock, the session factory, the record loader with that
    session and the selection given, the calculator with the records
    loaded and the same session, [stop()] on that session, the clock
    again, and the logger with the difference of the two clock readings.
    The configuration given goes to the factory, the loader and the
    calculator. *)
Theorem pipeline_success_calls (m : bunch_map) :
  (fst from_database = Ok m ->
   exists run_start_time spark record_rdd run_end_time,
     snd from_database
     = [Entry Now (Ok run_start_time);
        Entry (CreateSparkSession config) (Ok spark);
        Entry (LoadRecordsFromRmdb config spark
                 owner repo begin_date end_date repo_type) (Ok record_rdd);
        Entry (CalculateNodeTree config record_rdd spark repo_type) (Ok m);
        Entry (SparkStop spark) (Ok tt);
        Entry Now (Ok run_end_time);
        Entry (LoggerInfo step_finished
                 (Calendar.mkTimedelta run_end_time run_start_time)) (Ok tt)])
  /\ (fst from_file = Ok m ->
      exists run_start_time spark record_rdd run_end_time,
        snd from_file
        = [Entry Now (Ok run_start_time);
           Entry (CreateSparkSession config) (Ok spark);
           Entry (LoadRecordsFromFile config log_file spark
                    owner repo begin_date end_date repo_type) (Ok record_rdd);
           Entry (CalculateNodeTree config record_rdd spark repo_type) (Ok m);
           Entry (SparkStop spark) (Ok tt);
           Entry Now (Ok run_end_time);
           Entry (LoggerInfo step_finished
                    (Calendar.mkTimedelta run_end_time run_start_time)) (Ok tt)]).
Proof.
  split.
  - unfold from_database, generate_node_tree_from_database.
    repeat (next_call env; [|discriminate]).
    rewrite run_ret. cbn [fst snd]. intro Heq. inversion Heq; subst.
    unit_answers. do 4 eexists. reflexivity.
  - unfold from_file, generate_node_tree_from_file.
    repeat (next_call env; [|discriminate]).
    rewrite run_ret. cbn [fst snd]. intro Heq. inversion Heq; subst.
    unit_answers. do 4 eexists. reflexivity.
Qed.

Ltac balance :=
  cbn [created stopped calculated load_or_calculate_failures List.length];
  split; [auto|]; split; [reflexivity|];
  split; [intros [Hc Hs]; congruence | intro Hf; split; congruence].

(** X6.  In every environment a pipeline function creates at most one
    session; it calls [stop()] exactly when the calculator has returned,
    and then on the session it created; and a session is created and left
    without [stop()] exactly when record loading or the calculation
    raised. *)
Theorem pipeline_session_balance :
  session_balanced (snd from_database) /\ session_balanced (snd from_file).
Proof.
  unfold session_balanced. split.
  - unfold from_database, generate_node_tree_from_database. walk env; balance.
  - unfold from_file, generate_node_tree_from_file. walk env; balance.
Qed.

End PipelineCalls.

(** ** The calls of the sink and of the commands *)

Section CommandCalls.

Context `{Collaborators}.

Import Py.
Local Open Scope string_scope.
Local Open Scope list_scope.

(** Each reading of a trace goes through concatenation. *)
Ltac reading_app t1 :=
  let X := fresh "X" in
  let ev := fresh "ev" in
  let r := fresh "r" in
  let IH := fresh "IH" in
  induction t1 as [|[X ev r] t1 IH]; [reflexivity|];
  destruct ev; try destruct r; cbn; rewrite ?IH; reflexivity.

Lemma stop_count_app (t1 t2 : list entry) :
  stop_count (t1 ++ t2) = (stop_count t1 + stop_count t2)%nat.
Proof. unfold stop_count. rewrite filter_app, length_app. reflexivity. Qed.

Lemma calculated_app (t1 t2 : list entry) :
  calculated (t1 ++ t2) = calculated t1 ++ calculated t2.
Proof. reading_app t1. Qed.

Lemma traversed_app (t1 t2 : list entry) :
  traversed (t1 ++ t2) = traversed t1 ++ traversed t2.
Proof.
  induction t1 as [|[X ev r] t1 IH]; [reflexivity|].
  destruct ev; try destruct v; cbn; rewrite ?IH; reflexivity.
Qed.

Lemma dumped_app (t1 t2 : list entry) :
  dumped (t1 ++ t2) = dumped t1 ++ dumped t2.
Proof. reading_app t1. Qed.

Lemma opened_app (t1 t2 : list entry) :
  opened (t1 ++ t2) = opened t1 ++ opened t2.
Proof. reading_app t1. Qed.



Lemma print_loop_pipeline_free (env : oracle) (items : bunch_map) :
  forall past,
    pipeline_free
      (snd (run env past
              (for_each items
                 (fun item => call (PreOrderTravel (snd item) SimplePrintVisitor))))).
Proof.
  unfold pipeline_free.
  induction items as [|[d b] items IH]; intro past; cbn [for_each].
  - repeat split.
  - rewrite run_call_bind. cbn [snd].
    destruct (env unit past (PreOrderTravel b SimplePrintVisitor)) as [u | e];
      cbn [fst snd]; [apply IH | repeat split].
Qed.

Lemma sink_pipeline_free (env : oracle) (past : list entry) (output_type : value)
    (items : bunch_map) (kw : kwargs) :
  pipeline_free (snd (run env past (_sink_result output_type items kw))).
Proof.
  unfold _sink_result.
  destruct (eq_str output_type "print"); [apply print_loop_pipeline_free|].
  destruct (eq_str output_type "file"); [|repeat split].
  rewrite run_lift_bind.
  destruct (kwargs_getitem kw "output_file") as [path | e]; [|repeat split].
  rewrite run_call_bind.
  destruct (env file past (FileOpen path "w")) as [f | e]; [|repeat split].
  rewrite run_finally_calls. repeat split.
Qed.

Lemma database_pipeline_sink_free (env : oracle) (past : list entry)
    (config owner repo begin_date end_date repo_type : value) :
  let tr := snd (run env past
                   (generate_node_tree_from_database
                      config owner repo begin_date end_date repo_type)) in
  sink_free tr /\ Forall (eq config) (configs_used tr).
Proof.
  cbv zeta. unfold sink_free, generate_node_tree_from_database.
  walk env; cbn [configs_used]; repeat split; repeat constructor.
Qed.

Lemma file_pipeline_sink_free (env : oracle) (past : list entry)
    (config log_file owner repo begin_date end_date repo_type : value) :
  let tr := snd (run env past
                   (generate_node_tree_from_file
                      config log_file owner repo begin_date end_date repo_type)) in
  sink_free tr /\ Forall (eq config) (configs_used tr).
Proof.
  cbv zeta. unfold sink_free, generate_node_tree_from_file.
  walk env; cbn [configs_used]; repeat split; repeat constructor.
Qed.

(** The run of [database] once its dates are read: the configuration is
    loaded, then the pipeline runs, then the sink. *)
Lemma database_run (env : oracle) (past : list entry)
    (owner repo repo_type : string)
    (begin_date end_date : option string) (config_file output_type : string)
    (output_file : option string) (b e : value) :
  normalize_date (of_option begin_date) = Ok b ->
  normalize_date (of_option end_date) = Ok e ->
  run env past (database owner repo repo_type begin_date end_date
                         config_file output_type output_file)
  = match env value past (LoadConfig config_file) with
    | Raise err => (Raise err, [Entry (LoadConfig config_file) (Raise err)])
    | Ok config =>
        let loaded := Entry (LoadConfig config_file) (Ok config) in
        let pipeline :=
          run env (loaded :: past)
              (generate_node_tree_from_database config
                 (PyStr owner) (PyStr repo) b e (PyStr repo_type)) in
        match fst pipeline with
        | Raise err => (Raise err, loaded :: snd pipeline)
        | Ok m =>
            let sink :=
              run env (rev (snd pipeline) ++ loaded :: past)
                  (_sink_result (PyStr output_type) m
                                [("output_file", of_option output_file)]) in
            (fst sink, loaded :: snd pipeline ++ snd sink)
        end
    end.
Proof.
  intros Hb He. rewrite (database_reads _ _ _ _ _ _ _ _ Hb He).
  rewrite run_call_bind.
  destruct (env value past (LoadConfig config_file)) as [config | err];
    [|reflexivity].
  rewrite run_bind. cbv zeta.
  destruct (fst (run env _ (generate_node_tree_from_database _ _ _ _ _ _)));
    reflexivity.
Qed.

(** The run of [file] once its task file is read. *)
Lemma cli_file_body_run (env : oracle) (past : list entry)
    (config task : value) (tc : list (key * value))
    (log_file output_type output_file b e : value) :
  getitem task (KStr "task") = Ok (PyDict tc) ->
  source_ready task log_file ->
  sink_ready task output_type output_file ->
  normalize_date (dict_get (KStr "begin_date") PyNone tc) = Ok b ->
  normalize_date (dict_get (KStr "end_date") PyNone tc) = Ok e ->
  run env past (cli_file_body config task)
  = let pipeline :=
      run env past
          (generate_node_tree_from_file config log_file
             (dict_get (KStr "owner") PyNone tc)
             (dict_get (KStr "repo") PyNone tc)
             b e
             (dict_get (KStr "workflow_type") (PyStr "ecflow") tc)) in
    match fst pipeline with
    | Raise err => (Raise err, snd pipeline)
    | Ok m =>
        let sink :=
          run env (rev (snd pipeline) ++ past)
              (_sink_result output_type m [("output_file", output_file)]) in
        (fst sink, snd pipeline ++ snd sink)
    end.
Proof.
  intros Htask Hsource Hsink Hb He.
  rewrite (cli_file_body_reads config Htask Hsource Hsink Hb He).
  rewrite run_bind. cbv zeta.
  destruct (fst (run env _ (generate_node_tree_from_file _ _ _ _ _ _ _)));
    reflexivity.
Qed.

(** The printing loop touches no file. *)
Lemma print_loop_files (env : oracle) (items : bunch_map) :
  forall past,
    let tr := snd (run env past
                     (for_each items
                        (fun item => call (PreOrderTravel (snd item) SimplePrintVisitor)))) in
    opened tr = [] /\ opened_files tr = [] /\ closed tr = [] /\ dumped tr = [].
Proof.
  induction items as [|[d b] items IH]; intro past; cbv zeta; cbn [for_each].
  - repeat split.
  - rewrite run_call_bind. cbn [snd].
    destruct (env unit past (PreOrderTravel b SimplePrintVisitor)) as [u | e];
      cbn [fst snd opened opened_files closed dumped]; [apply IH | repeat split].
Qed.

(** X7.  Whatever the output type and the environment, the sink opens at
    most one file, closes every file it opened exactly once and closes
    nothing else, also when [json.dump] raises; and it dumps nothing
    unless the file was opened. *)
Theorem sink_closes_what_it_opens (env : oracle) (past : list entry)
    (output_type : value) (items : bunch_map) (kw : kwargs) :
  let tr := snd (run env past (_sink_result output_type items kw)) in
  closed tr = opened_files tr
  /\ (List.length (opened tr) <= 1)%nat
  /\ (dumped tr <> [] -> opened_files tr <> []).
Proof.
  cbv zeta. unfold _sink_result.
  destruct (eq_str output_type "print").
  - destruct (print_loop_files env items past) as (Ho & Hf & Hc & Hd).
    rewrite Ho, Hf, Hc, Hd. repeat split; auto.
  - destruct (eq_str output_type "file"); [|repeat split; auto].
    rewrite run_lift_bind.
    destruct (kwargs_getitem kw "output_file") as [path | e];
      [|repeat split; auto].
    rewrite run_call_bind.
    destruct (env file past (FileOpen path "w")) as [f | e];
      [|repeat split; auto].
    rewrite run_finally_calls. cbv zeta.
    cbn [fst snd closed opened_files opened dumped List.length].
    repeat split; auto. intros _. discriminate.
Qed.

(** The sink when no collaborator fails. *)
Lemma sink_total (env : oracle) (past : list entry) (output_type : value)
    (items : bunch_map) (path : value) :
  never_raises env ->
  let out := run env past
               (_sink_result output_type items [("output_file", path)]) in
  fst out = Ok tt
  /\ (eq_str output_type "print" = true ->
      traversed (snd out) = map snd items
      /\ opened (snd out) = [] /\ dumped (snd out) = [])
  /\ (eq_str output_type "print" = false ->
      eq_str output_type "file" = true ->
      traversed (snd out) = []
      /\ opened (snd out) = [path]
      /\ dumped (snd out) = [JObj (sink_document items)])
  /\ (eq_str output_type "print" = false ->
      eq_str output_type "file" = false -> snd out = []).
Proof.
  intro Hnr. cbv zeta. unfold _sink_result.
  destruct (eq_str output_type "print").
  - assert (Hok : forall past' b,
              exists u, env unit past' (PreOrderTravel b SimplePrintVisitor) = Ok u)
      by (intros; apply Hnr).
    destruct (print_loop_complete env items Hok past) as (Hout & Htr & _).
    destruct (print_loop_files env items past) as (Ho & _ & _ & Hd).
    repeat split; auto; discriminate.
  - destruct (eq_str output_type "file").
    + cbn [kwargs_getitem]. change ("output_file" =? "output_file") with true.
      cbn iota. rewrite run_lift_bind, run_call_bind.
      destruct (Hnr _ past (FileOpen path "w")) as [f Hf]. rewrite Hf.
      rewrite run_finally_calls. cbv zeta.
      match goal with
      | |- context [env unit ?p (JsonDump ?doc f)] =>
          destruct (Hnr _ p (JsonDump doc f)) as [[] Hdump]; rewrite Hdump
      end.
      match goal with
      | |- context [env unit ?p (FileClose f)] =>
          destruct (Hnr _ p (FileClose f)) as [[] Hclose]; rewrite Hclose
      end.
      cbn [fst snd traversed opened dumped].
      repeat split; auto; discriminate.
    + repeat split; auto; discriminate.
Qed.

(** X8.  The command [database], when its dates are read and no
    collaborator fails, returns after the pipeline has run once and its
    session is stopped, and hands the bunch map the calculator returned to
    the output: with type ["print"] it traverses the bunches of that map,
    in order, and opens no file; with type ["file"] it traverses nothing
    and dumps the map's document into the path given by [--output-file],
    which is passed to [open] as it is, [None] when the option is absent.
    The path is not checked before the pipeline runs. *)
Theorem database_output (env : oracle) (past : list entry)
    (owner repo repo_type : string)
    (begin_date end_date : option string) (config_file output_type : string)
    (output_file : option string) (b e : value) :
  never_raises env ->
  normalize_date (of_option begin_date) = Ok b ->
  normalize_date (of_option end_date) = Ok e ->
  let out := run env past
               (database owner repo repo_type begin_date end_date
                         config_file output_type output_file) in
  exists m,
    fst out = Ok tt
    /\ calculated (snd out) = [m]
    /\ stop_count (snd out) = 1%nat
    /\ (output_type = "print" ->
        traversed (snd out) = map snd m /\ opened (snd out) = [])
    /\ (output_type = "file" ->
        traversed (snd out) = []
        /\ opened (snd out) = [of_option output_file]
        /\ dumped (snd out) = [JObj (sink_document m)]).
Proof.
  intros Hnr Hb He. cbv zeta. rewrite (database_run env past _ _ _ _ _ _ _ _ Hb He).
  destruct (Hnr _ past (LoadConfig config_file)) as [config Hconfig].
  rewrite Hconfig. cbv zeta.
  match goal with
  | |- context [run env ?p (generate_node_tree_from_database ?c ?o ?r ?bd ?ed ?t)] =>
      destruct (@database_pipeline_total _ env p c o r bd ed t Hnr) as (m & Hm & _);
      pose proof (@database_pipeline_success _ env p c o r bd ed t m Hm)
        as [Hstop Hcalc];
      destruct (database_pipeline_sink_free env p c o r bd ed t)
        as [(Htrav & Hdump & Hopen & _) _]
  end.
  rewrite Hm.
  match goal with
  | |- context [run env ?p (_sink_result ?ot ?items [("output_file", ?path)])] =>
      destruct (@sink_total env p ot items path Hnr)
        as (Hout & Hprint & Hfile & _);
      destruct (sink_pipeline_free env p ot items [("output_file", path)])
        as (Hstop' & Hcalc' & _)
  end.
  exists m. cbn [fst snd].
  change (calculated (?x :: ?l)) with (calculated l).
  change (stop_count (Entry (LoadConfig config_file) (Ok config) :: ?l))
    with (stop_count l).
  change (traversed (Entry (LoadConfig config_file) (Ok config) :: ?l))
    with (traversed l).
  change (opened (Entry (LoadConfig config_file) (Ok config) :: ?l))
    with (opened l).
  change (dumped (Entry (LoadConfig config_file) (Ok config) :: ?l))
    with (dumped l).
  rewrite calculated_app, stop_count_app, traversed_app, opened_app, dumped_app.
  rewrite Hcalc, Hcalc', Hstop, Hstop', Htrav, Hdump, Hopen.
  split; [exact Hout|]. split; [reflexivity|]. split; [reflexivity|]. split.
  - intros ->. destruct (Hprint eq_refl) as (Ht & Ho & _).
    rewrite Ht, Ho. split; reflexivity.
  - intros ->. destruct (Hfile eq_refl eq_refl) as (Ht & Ho & Hd).
    rewrite Ht, Ho, Hd. repeat split; reflexivity.
Qed.

(** X9.  The command [file], when its task file is read and no
    collaborator fails, returns after the pipeline has run once and its
    session is stopped, and hands the bunch map the calculator returned to
    the output named by the first sink descriptor: with type ["print"] it
    traverses the bunches of that map, in order; with type ["file"] it
    dumps the map's document into the descriptor's [file_path]. *)
Theorem file_command_output (env : oracle) (past : list entry)
    (config task : value) (tc : list (key * value))
    (log_file output_type output_file b e : value) :
  never_raises env ->
  getitem task (KStr "task") = Ok (PyDict tc) ->
  source_ready task log_file ->
  sink_ready task output_type output_file ->
  normalize_date (dict_get (KStr "begin_date") PyNone tc) = Ok b ->
  normalize_date (dict_get (KStr "end_date") PyNone tc) = Ok e ->
  let out := run env past (cli_file_body config task) in
  exists m,
    fst out = Ok tt
    /\ calculated (snd out) = [m]
    /\ stop_count (snd out) = 1%nat
    /\ (output_type = PyStr "print" ->
        traversed (snd out) = map snd m /\ opened (snd out) = [])
    /\ (output_type = PyStr "file" ->
        traversed (snd out) = []
        /\ opened (snd out) = [output_file]
        /\ dumped (snd out) = [JObj (sink_document m)]).
Proof.
  intros Hnr Htask Hsource Hsink Hb He. cbv zeta.
  rewrite (cli_file_body_run env past config Htask Hsource Hsink Hb He).
  cbv zeta.
  match goal with
  | |- context [run env ?p (generate_node_tree_from_file ?c ?l ?o ?r ?bd ?ed ?t)] =>
      destruct (@file_pipeline_total _ env p c l o r bd ed t Hnr) as (m & Hm & _);
      pose proof (@file_pipeline_success _ env p c l o r bd ed t m Hm)
        as [Hstop Hcalc];
      destruct (file_pipeline_sink_free env p c l o r bd ed t)
        as [(Htrav & Hdump & Hopen & _) _]
  end.
  rewrite Hm.
  match goal with
  | |- context [run env ?p (_sink_result ?ot ?items [("output_file", ?path)])] =>
      destruct (@sink_total env p ot items path Hnr)
        as (Hout & Hprint & Hfile & _);
      destruct (sink_pipeline_free env p ot items [("output_file", path)])
        as (Hstop' & Hcalc' & _)
  end.
  exists m. cbn [fst snd].
  rewrite calculated_app, stop_count_app, traversed_app, opened_app, dumped_app.
  rewrite Hcalc, Hcalc', Hstop, Hstop', Htrav, Hdump, Hopen.
  split; [exact Hout|]. split; [reflexivity|]. split; [reflexivity|]. split.
  - intros ->. destruct (Hprint eq_refl) as (Ht & Ho & _).
    rewrite Ht, Ho. split; reflexivity.
  - intros ->. destruct (Hfile eq_refl eq_refl) as (Ht & Ho & Hd).
    rewrite Ht, Ho, Hd. repeat split; reflexivity.
Qed.

(** Replays the reads made so far and shows that the next one ends the
    command. *)
Ltac replay_reads :=
  unfold cli_file_body;
  repeat (match goal with
          | Hr : ?r = _ |- context [lift ?r] => rewrite Hr
          end;
          cbn [lift bind get]).

Ltac fails_early := left; replay_reads; solve [eauto].

(** The task files the command [file] can read. *)
Lemma cli_file_body_cases (config task : value) :
  (exists err, cli_file_body config task = Throw err)
  \/ (exists tc log_file output_type output_file b e,
        getitem task (KStr "task") = Ok (PyDict tc)
        /\ source_ready task log_file
        /\ sink_ready task output_type output_file
        /\ normalize_date (dict_get (KStr "begin_date") PyNone tc) = Ok b
        /\ normalize_date (dict_get (KStr "end_date") PyNone tc) = Ok e).
Proof.
  destruct (getitem task (KStr "task")) as [tcv | e0] eqn:Htask; [|fails_early].
  destruct tcv as [| ? | ? | ? | ? | tc | ?]; try fails_early.
  destruct (getitem task (KStr "source")) as [src | e0] eqn:Hsrc; [|fails_early].
  destruct (getitem src (KInt 0)) as [s0 | e0] eqn:Hs0; [|fails_early].
  destruct (getitem s0 (KStr "file_path")) as [lf | e0] eqn:Hlf; [|fails_early].
  destruct (getitem task (KStr "sink")) as [snk | e0] eqn:Hsnk; [|fails_early].
  destruct (getitem snk (KInt 0)) as [cur | e0] eqn:Hcur; [|fails_early].
  destruct (getitem cur (KStr "type")) as [ot | e0] eqn:Hot; [|fails_early].
  destruct (normalize_date (dict_get (KStr "begin_date") PyNone tc))
    as [b | e0] eqn:Hb; [|fails_early].
  destruct (normalize_date (dict_get (KStr "end_date") PyNone tc))
    as [e | e0] eqn:He; [|fails_early].
  assert (Hsource : source_ready task lf) by (exists src, s0; auto).
  assert (Hfirst : first_sink task cur ot) by (exists snk; auto).
  destruct (eq_str ot "file") eqn:Hfile.
  - destruct (get cur (KStr "file_path") PyNone) as [path | e0] eqn:Hpath.
    + destruct (is_none path || eq_str path "") eqn:Hset.
      * left. replay_reads. rewrite Hfile, ?Hpath. cbn [lift bind].
        rewrite Hset. eexists. reflexivity.
      * right. exists tc, lf, ot, path, b, e. repeat split; auto.
        exists cur. split; [exact Hfirst|]. right. auto.
    + left. replay_reads. rewrite Hfile, ?Hpath. eexists. reflexivity.
  - right. exists tc, lf, ot, PyNone, b, e. repeat split; auto.
    exists cur. split; [exact Hfirst|]. left. auto.
Qed.

(** X10.  The command [file] either raises before it makes any call, or
    its task file can be read: the [task] section is a mapping, the first
    source descriptor has a [file_path], the first sink descriptor has a
    [type] and, for the type ["file"], a [file_path] that is not empty,
    and both dates pass the guard and the parser.  In that case the
    command is the pipeline followed by the sink. *)
Theorem file_command_reads_or_fails (config task : value) :
  (exists err,
     cli_file_body config task = Throw err
     /\ forall env past, run env past (cli_file_body config task) = (Raise err, []))
  \/ (exists tc log_file output_type output_file b e,
        getitem task (KStr "task") = Ok (PyDict tc)
        /\ source_ready task log_file
        /\ sink_ready task output_type output_file
        /\ normalize_date (dict_get (KStr "begin_date") PyNone tc) = Ok b
        /\ normalize_date (dict_get (KStr "end_date") PyNone tc) = Ok e
        /\ cli_file_body config task
           = bind (generate_node_tree_from_file config log_file
                     (dict_get (KStr "owner") PyNone tc)
                     (dict_get (KStr "repo") PyNone tc)
                     b e
                     (dict_get (KStr "workflow_type") (PyStr "ecflow") tc))
                  (fun m => _sink_result output_type m
                              [("output_file", output_file)])).
Proof.
  destruct (cli_file_body_cases config task)
    as [[err Herr] | (tc & lf & ot & path & b & e & Htask & Hsource & Hsink & Hb & He)].
  - left. exists err. split; [exact Herr|]. intros env past.
    rewrite Herr. reflexivity.
  - right. exists tc, lf, ot, path, b, e. repeat split; auto.
    now apply cli_file_body_reads.
Qed.

(** The output of a run made of a pipeline and a sink comes after the
    pipeline. *)
Lemma output_after_pipeline (tp ts : list entry) (m : bunch_map) :
  stop_count tp = 1%nat -> calculated tp = [m] ->
  pipeline_free ts ->
  stop_count (tp ++ ts) = 1%nat /\ calculated (tp ++ ts) = [m].
Proof.
  intros Hstop Hcalc (Hstop' & Hcalc' & _).
  rewrite stop_count_app, calculated_app, Hstop, Hstop', Hcalc, Hcalc'.
  split; reflexivity.
Qed.

(** X11.  In every environment, either command traverses a bunch or opens
    a file only after the pipeline function has returned: by then the
    calculator has returned one bunch map and [stop()] has been called
    once. *)
Theorem output_only_after_pipeline (env : oracle) (past : list entry)
    (owner repo repo_type : string)
    (begin_date end_date : option string) (config_file output_type : string)
    (output_file : option string) (config task : value) :
  let in_database :=
    snd (run env past (database owner repo repo_type begin_date end_date
                                config_file output_type output_file)) in
  let in_file := snd (run env past (cli_file_body config task)) in
  (traversed in_database <> [] \/ opened in_database <> [] ->
   stop_count in_database = 1%nat /\ exists m, calculated in_database = [m])
  /\ (traversed in_file <> [] \/ opened in_file <> [] ->
      stop_count in_file = 1%nat /\ exists m, calculated in_file = [m]).
Proof.
  cbv zeta. split.
  - destruct (normalize_date (of_option begin_date)) as [b | e0] eqn:Hb.
    2:{ unfold database. rewrite Hb. cbn. intros [Hn | Hn]; congruence. }
    destruct (normalize_date (of_option end_date)) as [e | e0] eqn:He.
    2:{ unfold database. rewrite Hb, He. cbn. intros [Hn | Hn]; congruence. }
    rewrite (database_run env past _ _ _ _ _ _ _ _ Hb He).
    destruct (env value past (LoadConfig config_file)) as [cfg | e0].
    2:{ cbn. intros [Hn | Hn]; congruence. }
    cbv zeta.
    match goal with
    | |- context [run env ?p (generate_node_tree_from_database ?c ?o ?r ?bd ?ed ?t)] =>
        pose proof (@database_pipeline_success _ env p c o r bd ed t) as Hsuccess;
        destruct (database_pipeline_sink_free env p c o r bd ed t)
          as [(Htrav & _ & Hopen & _) _]
    end.
    destruct (fst (run env _ (generate_node_tree_from_database _ _ _ _ _ _)))
      as [m | e0]; cbn [fst snd].
    + intros _. destruct (Hsuccess m eq_refl) as [Hstop Hcalc].
      change (stop_count (Entry (LoadConfig config_file) (Ok cfg) :: ?l))
        with (stop_count l).
      change (calculated (Entry (LoadConfig config_file) (Ok cfg) :: ?l))
        with (calculated l).
      match goal with
      | |- context [run env ?p (_sink_result ?ot ?items ?kw)] =>
          destruct (@output_after_pipeline _ _ m Hstop Hcalc
                      (sink_pipeline_free env p ot items kw)) as [Hs Hc]
      end.
      split; [exact Hs | exists m; exact Hc].
    + change (traversed (Entry (LoadConfig config_file) (Ok cfg) :: ?l))
        with (traversed l).
      change (opened (Entry (LoadConfig config_file) (Ok cfg) :: ?l))
        with (opened l).
      rewrite Htrav, Hopen. intros [Hn | Hn]; congruence.
  - destruct (cli_file_body_cases config task)
      as [[err Herr] | (tc & lf & ot & path & b & e & Htask & Hsource & Hsink & Hb & He)].
    { rewrite Herr. cbn. intros [Hn | Hn]; congruence. }
    rewrite (cli_file_body_run env past config Htask Hsource Hsink Hb He).
    cbv zeta.
    match goal with
    | |- context [run env ?p (generate_node_tree_from_file ?c ?l ?o ?r ?bd ?ed ?t)] =>
        pose proof (@file_pipeline_success _ env p c l o r bd ed t) as Hsuccess;
        destruct (file_pipeline_sink_free env p c l o r bd ed t)
          as [(Htrav & _ & Hopen & _) _]
    end.
    destruct (fst (run env _ (generate_node_tree_from_file _ _ _ _ _ _ _)))
      as [m | e0]; cbn [fst snd].
    + intros _. destruct (Hsuccess m eq_refl) as [Hstop Hcalc].
      match goal with
      | |- context [run env ?p (_sink_result ?ot ?items ?kw)] =>
          destruct (@output_after_pipeline _ _ m Hstop Hcalc
                      (sink_pipeline_free env p ot items kw)) as [Hs Hc]
      end.
      split; [exact Hs | exists m; exact Hc].
    + rewrite Htrav, Hopen. intros [Hn | Hn]; congruence.
Qed.


(** X13.  The command [database] passes its options to the record loader
    as they are given: owner, repo and repo type unchanged, the two dates
    as the guard and the parser leave them.  It loads from the database at
    most once, exactly once when no collaborator fails, and never from a
    log file. *)
Theorem database_forwards_options (env : oracle) (past : list entry)
    (owner repo repo_type : string)
    (begin_date end_date : option string) (config_file output_type : string)
    (output_file : option string) (b e : value) :
  normalize_date (of_option begin_date) = Ok b ->
  normalize_date (of_option end_date) = Ok e ->
  let tr := snd (run env past
                   (database owner repo repo_type begin_date end_date
                             config_file output_type output_file)) in
  loaded_once env (rmdb_loads tr)
    (mkSelection (PyStr owner) (PyStr repo) b e (PyStr repo_type))
  /\ file_loads tr = [].
Proof.
  intros Hb He. cbv zeta. split; [now apply database_loads|].
  rewrite (database_run env past _ _ _ _ _ _ _ _ Hb He).
  destruct (env value past (LoadConfig config_file)) as [cfg | e0];
    [|reflexivity].
  cbv zeta.
  match goal with
  | |- context [run env ?p (generate_node_tree_from_database ?c ?o ?r ?bd ?ed ?t)] =>
      destruct (database_pipeline_loads env p c o r bd ed t) as [_ Hnone]
  end.
  destruct (fst (run env _ (generate_node_tree_from_database _ _ _ _ _ _)))
    as [m | e0]; cbn [fst snd file_loads]; [|exact Hnone].
  rewrite file_loads_app, Hnone.
  match goal with
  | |- context [run env ?p (_sink_result ?ot ?items ?kw)] =>
      destruct (sink_loads env p ot items kw) as [_ Hsink]
  end.
  exact Hsink.
Qed.

(** X14.  The command [file] passes the values of the [task] section to
    the record loader as they are, with the defaults of [.get] for absent
    keys and the two dates as the guard and the parser leave them,
    together with the [file_path] of the first source descriptor.  It
    loads from the log file at most once, exactly once when no
    collaborator fails, and never from the database. *)
Theorem file_command_forwards_task (env : oracle) (past : list entry)
    (config task : value) (tc : list (key * value))
    (log_file output_type output_file b e : value) :
  getitem task (KStr "task") = Ok (PyDict tc) ->
  source_ready task log_file ->
  sink_ready task output_type output_file ->
  normalize_date (dict_get (KStr "begin_date") PyNone tc) = Ok b ->
  normalize_date (dict_get (KStr "end_date") PyNone tc) = Ok e ->
  let tr := snd (run env past (cli_file_body config task)) in
  loaded_once env (file_loads tr)
    (log_file,
     mkSelection (dict_get (KStr "owner") PyNone tc)
                 (dict_get (KStr "repo") PyNone tc)
                 b e
                 (dict_get (KStr "workflow_type") (PyStr "ecflow") tc))
  /\ rmdb_loads tr = [].
Proof.
  intros Htask Hsource Hsink Hb He. cbv zeta.
  split; [now apply (cli_file_body_loads env past config Htask Hsource Hsink)|].
  rewrite (cli_file_body_run env past config Htask Hsource Hsink Hb He).
  cbv zeta.
  match goal with
  | |- context [run env ?p (generate_node_tree_from_file ?c ?l ?o ?r ?bd ?ed ?t)] =>
      destruct (file_pipeline_loads env p c l o r bd ed t) as [_ Hnone]
  end.
  destruct (fst (run env _ (generate_node_tree_from_file _ _ _ _ _ _ _)))
    as [m | e0]; cbn [fst snd]; [|exact Hnone].
  rewrite rmdb_loads_app, Hnone.
  match goal with
  | |- context [run env ?p (_sink_result ?ot ?items ?kw)] =>
      destruct (sink_loads env p ot items kw) as [Hsink' _]
  end.
  exact Hsink'.
Qed.

End CommandCalls.

(** ** Further sample runs *)

Section FurtherRuns.

Import Py.
Local Open Scope string_scope.
Local Open Scope list_scope.

(** X3 on the first of the sample days. *)
Lemma formatted_date_parses_back_witness :
  normalize_date (PyStr (Calendar.strftime Sample.day1))
  = Ok (PyDatetime (Calendar.midnight 2020 1 1)).
Proof.
  apply (@formatted_date_parses_back Sample.day1); [reflexivity | cbn; lia].
Defined.

(** X4 on a leap day. *)
Lemma parsed_date_formats_back_witness :
  Calendar.strptime "2020-02-29" = Ok (Calendar.midnight 2020 2 29)
  /\ Calendar.strftime (Calendar.mkDate 2020 2 29) = "2020-02-29".
Proof.
  apply (@parsed_date_formats_back "2020-02-29" 2020%Z 2%Z 29%Z);
    [reflexivity | lia].
Defined.

(** X5 in the environment where every call succeeds. *)
Lemma pipeline_success_calls_witness :
  exists run_start_time spark record_rdd run_end_time,
    snd (run (Sample.env PyNone) []
           (generate_node_tree_from_file PyNone (PyStr "a.log")
              PyNone PyNone PyNone PyNone (PyStr "ecflow")))
    = [Entry Now (Ok run_start_time);
       Entry (CreateSparkSession PyNone) (Ok spark);
       Entry (LoadRecordsFromFile PyNone (PyStr "a.log") spark
                PyNone PyNone PyNone PyNone (PyStr "ecflow")) (Ok record_rdd);
       Entry (CalculateNodeTree PyNone record_rdd spark (PyStr "ecflow"))
             (Ok Sample.two_days);
       Entry (SparkStop spark) (Ok tt);
       Entry Now (Ok run_end_time);
       Entry (LoggerInfo step_finished
                (Calendar.mkTimedelta run_end_time run_start_time)) (Ok tt)].
Proof.
  exact (proj2 (@pipeline_success_calls Sample.collaborators
                  (Sample.env PyNone) [] PyNone (PyStr "a.log")
                  PyNone PyNone PyNone PyNone (PyStr "ecflow") Sample.two_days)
               eq_refl).
Defined.

(** X8 on a run of [database] that writes a file. *)
Lemma database_output_witness :
  exists m,
    fst (run (Sample.env PyNone) []
           (database "wangdp" "grapes" "ecflow" (Some "2020-01-01")
                     (Some "2020-01-03") "config.yml" "file" (Some "out.json")))
    = Ok tt
    /\ calculated
         (snd (run (Sample.env PyNone) []
                 (database "wangdp" "grapes" "ecflow" (Some "2020-01-01")
                           (Some "2020-01-03") "config.yml" "file"
                           (Some "out.json"))))
       = [m]
    /\ opened
         (snd (run (Sample.env PyNone) []
                 (database "wangdp" "grapes" "ecflow" (Some "2020-01-01")
                           (Some "2020-01-03") "config.yml" "file"
                           (Some "out.json"))))
       = [PyStr "out.json"]
    /\ dumped
         (snd (run (Sample.env PyNone) []
                 (database "wangdp" "grapes" "ecflow" (Some "2020-01-01")
                           (Some "2020-01-03") "config.yml" "file"
                           (Some "out.json"))))
       = [JObj (sink_document m)].
Proof.
  destruct (@database_output Sample.collaborators (Sample.env PyNone) []
              "wangdp" "grapes" "ecflow" (Some "2020-01-01") (Some "2020-01-03")
              "config.yml" "file" (Some "out.json")
              (PyDatetime (Calendar.midnight 2020 1 1))
              (PyDatetime (Calendar.midnight 2020 1 3))
              (sample_env_never_raises PyNone) eq_refl eq_refl)
    as (m & Hout & Hcalc & _ & _ & Hfile).
  destruct (Hfile eq_refl) as (_ & Hopen & Hdump).
  exists m. repeat split; assumption.
Defined.

(** X9 on the task file with a printing sink. *)
Lemma file_command_output_witness :
  exists m,
    fst (run (Sample.env Sample.task_print) []
           (cli_file_body PyNone Sample.task_print)) = Ok tt
    /\ calculated
         (snd (run (Sample.env Sample.task_print) []
                 (cli_file_body PyNone Sample.task_print))) = [m]
    /\ traversed
         (snd (run (Sample.env Sample.task_print) []
                 (cli_file_body PyNone Sample.task_print))) = map snd m.
Proof.
  destruct (@file_command_output Sample.collaborators
              (Sample.env Sample.task_print) [] PyNone Sample.task_print []
              (PyStr "a.log") (PyStr "print") PyNone PyNone PyNone
              (sample_env_never_raises Sample.task_print) eq_refl
              sample_source_ready sample_sink_ready eq_refl eq_refl)
    as (m & Hout & Hcalc & _ & Hprint & _).
  destruct (Hprint eq_refl) as [Htrav _].
  exists m. repeat split; assumption.
Defined.

(** X11 on a printing run of [database]. *)
Lemma output_only_after_pipeline_witness :
  stop_count
    (snd (run (Sample.env PyNone) []
            (database "wangdp" "grapes" "ecflow" None None
                      "config.yml" "print" None))) = 1%nat.
Proof.
  refine (proj1 (proj1 (@output_only_after_pipeline Sample.collaborators
                          (Sample.env PyNone) []
                          "wangdp" "grapes" "ecflow" None None
                          "config.yml" "print" None PyNone PyNone) _)).
  left. discriminate.
Defined.

(** X13 on a run of [database] with both dates. *)
Lemma database_forwards_options_witness :
  rmdb_loads
    (snd (run (Sample.env PyNone) []
            (database "wangdp" "grapes" "sms" (Some "2020-01-01")
                      (Some "2020-1-3") "config.yml" "print" None)))
  = [mkSelection (PyStr "wangdp") (PyStr "grapes")
                 (PyDatetime (Calendar.midnight 2020 1 1))
                 (PyDatetime (Calendar.midnight 2020 1 3))
                 (PyStr "sms")].
Proof.
  apply (proj1 (@database_forwards_options Sample.collaborators
                  (Sample.env PyNone) []
                  "wangdp" "grapes" "sms" (Some "2020-01-01") (Some "2020-1-3")
                  "config.yml" "print" None
                  (PyDatetime (Calendar.midnight 2020 1 1))
                  (PyDatetime (Calendar.midnight 2020 1 3))
                  eq_refl eq_refl)).
  apply sample_env_never_raises.
Defined.

Lemma populated_source_ready :
  source_ready Sample.task_populated (PyStr "a.log").
Proof. do 2 eexists. repeat split; reflexivity. Qed.

Lemma populated_sink_ready :
  sink_ready Sample.task_populated (PyStr "file") (PyStr "out.json").
Proof.
  exists (Sample.file_sink "out.json"). split.
  - eexists. repeat split; reflexivity.
  - right. repeat split; reflexivity.
Qed.

(** X14 on a task file with every key of the [task] section: the owner,
    the repo and the workflow type reach the loader as they are, the two
    dates parsed, and the log file is the first of the two. *)
Lemma file_command_forwards_task_witness :
  file_loads
    (snd (run (Sample.env Sample.task_populated) []
            (cli_file_body PyNone Sample.task_populated)))
  = [(PyStr "a.log",
      mkSelection (PyStr "wangdp") (PyStr "grapes")
                  (PyDatetime (Calendar.midnight 2020 1 1))
                  (PyDatetime (Calendar.midnight 2020 1 3))
                  (PyStr "sms"))]
  /\ rmdb_loads
       (snd (run (Sample.env Sample.task_populated) []
               (cli_file_body PyNone Sample.task_populated)))
     = [].
Proof.
  destruct (@file_command_forwards_task Sample.collaborators
              (Sample.env Sample.task_populated) [] PyNone Sample.task_populated
              [(KStr "owner", PyStr "wangdp"); (KStr "repo", PyStr "grapes");
               (KStr "begin_date", PyStr "2020-01-01");
               (KStr "end_date", PyStr "2020-1-3");
               (KStr "workflow_type", PyStr "sms")]
              (PyStr "a.log") (PyStr "file") (PyStr "out.json")
              (PyDatetime (Calendar.midnight 2020 1 1))
              (PyDatetime (Calendar.midnight 2020 1 3))
              eq_refl populated_source_ready populated_sink_ready
              eq_refl eq_refl) as [Hloads Hnone].
  split; [|exact Hnone].
  apply (proj2 Hloads). apply sample_env_never_raises.
Defined.

End FurtherRuns.
